(** * Answer routing and multi-source aggregation of the Risksoft chatbot

    A shallow embedding of [business/chatbot.py] (class [Chatbot]) and of the
    models it relies on in [models/schemas.py], [models/request_schemas.py] and
    [models/respons_schemas.py].

    Modelling conventions:
    - Python [str] is a Rocq [string]; [str.strip] and [str.lower] are
      modelled on ASCII (the ASCII whitespace of [str.isspace] and the ASCII
      upper-case letters).
    - Python [int] is [Z]; Python [float] is an IEEE binary64 primitive float.
    - Exceptions are values of [exn]; a fallible call returns [result].
    - The external collaborators (the language-model completions, the JSON
      validation of pydantic, the database and document back ends and the
      configured SQL templates) are the [Variable]s of section [Pipeline]. *)

From Stdlib Require Import String Ascii List Bool ZArith Floats Lia.
Import ListNotations.
Open Scope string_scope.

(** ** Strings *)

Definition nl : string := String (ascii_of_nat 10) EmptyString.

(** Python's [str.isspace] on ASCII: \t \n \v \f \r, \x1c-\x1f and space. *)
Definition is_space (c : ascii) : bool :=
  let n := nat_of_ascii c in
  (((9 <=? n) && (n <=? 13)) || ((28 <=? n) && (n <=? 32)))%nat.

Fixpoint lstrip (s : string) : string :=
  match s with
  | EmptyString => EmptyString
  | String c r => if is_space c then lstrip r else s
  end.

Fixpoint rstrip (s : string) : string :=
  match s with
  | EmptyString => EmptyString
  | String c r =>
      let r' := rstrip r in
      if is_space c && String.eqb r' EmptyString then EmptyString else String c r'
  end.

(** [s.strip()] *)
Definition strip (s : string) : string := lstrip (rstrip s).

Definition lower_char (c : ascii) : ascii :=
  let n := nat_of_ascii c in
  if ((65 <=? n) && (n <=? 90))%nat then ascii_of_nat (n + 32) else c.

(** [s.lower()] *)
Fixpoint lower (s : string) : string :=
  match s with
  | EmptyString => EmptyString
  | String c r => String (lower_char c) (lower r)
  end.

(** Truthiness of a Python string. *)
Definition str_truthy (s : string) : bool := negb (String.eqb s EmptyString).

(** ** Exceptions and fallible results *)

Inductive exn : Type :=
| ValidationError (msg : string)
| ValueError (msg : string)
| ChatbotException (msg : string)
| RuntimeError (msg : string).

(** [str(e)] *)
Definition str_exn (e : exn) : string :=
  match e with
  | ValidationError m | ValueError m | ChatbotException m | RuntimeError m => m
  end.

Inductive result (A : Type) : Type :=
| Return (a : A)
| Raise (e : exn).
Arguments Return {A} a.
Arguments Raise {A} e.

(** ** Enumerations of [models/enum.py] *)

Module LogType.
Inductive t := TOKEN_USAGE | ERROR | WARNING | INFO | SECURITY | PERFORMANCE.
End LogType.

Module Status.
Inductive t := SUCCESS | ERROR | WARNING.
End Status.

Inductive ChatMode := STANDARD | SUPPORT.

Definition ChatMode_value (m : ChatMode) : string :=
  match m with STANDARD => "standard" | SUPPORT => "support" end.

(** ** Usage telemetry: [ModelUsage] and [ChatbotUsageLog] *)

Module ModelUsage.
Record t := mk {
  model : string;
  prompt_tokens : Z;
  completion_tokens : Z;
  total_tokens : Z;
  cost : float;
  response_time_ms : Z
}.
End ModelUsage.

(** The [created_at] timestamp is not modelled. *)
Module ChatbotUsageLog.
Record t := mk {
  conversation_id : option Z;
  message_id : option Z;
  model_usages : list ModelUsage.t;
  total_tokens : Z;
  total_cost : float;
  total_response_time_ms : Z;
  log_type : LogType.t;
  status : Status.t;
  message : option string
}.

(** [ChatbotUsageLog()] *)
Definition new : t :=
  mk None None [] 0%Z 0%float 0%Z LogType.INFO Status.SUCCESS None.

(** [self.add_usage(model, prompt_tokens, ...)]: the log after the call
    (the trailing underscores keep the arguments apart from the fields). *)
Definition add_usage (l : t) (model_ : string)
    (prompt_tokens_ completion_tokens_ total_tokens_ : Z) (cost_ : float)
    (response_time_ms_ : Z) : t :=
  let usage := ModelUsage.mk model_ prompt_tokens_ completion_tokens_ total_tokens_
                 cost_ response_time_ms_ in
  mk (conversation_id l) (message_id l) (app (model_usages l) [usage])
     (total_tokens l + total_tokens_)%Z
     (PrimFloat.add (total_cost l) cost_)
     (total_response_time_ms l + response_time_ms_)%Z
     (log_type l) (status l) (message l).

(** [ChatbotUsageLog.create_error_log(message)] *)
Definition create_error_log (msg : string) : t :=
  mk None None [] 0%Z 0%float 0%Z LogType.ERROR Status.ERROR (Some msg).

(** A log into which a completion call recorded [usages] through
    [add_usage]. *)
Definition record_usages (l : t) (usages : list ModelUsage.t) : t :=
  fold_left (fun acc u =>
               add_usage acc (ModelUsage.model u) (ModelUsage.prompt_tokens u)
                 (ModelUsage.completion_tokens u) (ModelUsage.total_tokens u)
                 (ModelUsage.cost u) (ModelUsage.response_time_ms u))
            usages l.

(** The running totals agree with the sums over [model_usages], summed in
    list order as the running totals are. *)
Definition sum_tokens (us : list ModelUsage.t) : Z :=
  fold_left (fun acc u => (acc + ModelUsage.total_tokens u)%Z) us 0%Z.
Definition sum_cost (us : list ModelUsage.t) : float :=
  fold_left (fun acc u => PrimFloat.add acc (ModelUsage.cost u)) us 0%float.
Definition sum_time (us : list ModelUsage.t) : Z :=
  fold_left (fun acc u => (acc + ModelUsage.response_time_ms u)%Z) us 0%Z.

Definition totals_consistent (l : t) : Prop :=
  total_tokens l = sum_tokens (model_usages l) /\
  total_cost l = sum_cost (model_usages l) /\
  total_response_time_ms l = sum_time (model_usages l).
End ChatbotUsageLog.

(** [Chatbot._update_usage_log(target, source)]: the target after the call.
    A pydantic model is always truthy, so only a [None] source is a no-op. *)
Definition _update_usage_log (target : ChatbotUsageLog.t)
    (source : option ChatbotUsageLog.t) : ChatbotUsageLog.t :=
  match source with
  | None => target
  | Some s => ChatbotUsageLog.record_usages target (ChatbotUsageLog.model_usages s)
  end.

(** ** Routing decision: [DetermineAnswerSourceResult] *)

(** [Literal["database", "document", "casual"]] *)
Inductive AnswerSource := database | document | casual.

Definition AnswerSource_eqb (a b : AnswerSource) : bool :=
  match a, b with
  | database, database | document, document | casual, casual => true
  | _, _ => false
  end.

Definition AnswerSource_str (a : AnswerSource) : string :=
  match a with database => "database" | document => "document" | casual => "casual" end.

Record DetermineAnswerSourceResult := mkDASR {
  sources : list AnswerSource;
  improved_question : string;
  casual_response : option string
}.

(** [DetermineAnswerSourceResult.prioritized_sources] *)
Definition prioritized_sources (r : DetermineAnswerSourceResult) : list AnswerSource :=
  let prioritized := match sources r with [] => [casual] | l => l end in
  if (1 <? length prioritized)%nat && existsb (AnswerSource_eqb casual) prioritized then
    match filter (fun s => negb (AnswerSource_eqb s casual)) prioritized with
    | [] => [casual]
    | l => l
    end
  else prioritized.

(** ** Source normalisation, dedup and heavy-source cap
    (first part of [Chatbot._execute_answer_sources]) *)

(** [(source or "casual")] for an entry of [List[str]] that may be [None]. *)
Definition source_or_casual (s : option string) : string :=
  match s with
  | Some x => if str_truthy x then x else "casual"
  | None => "casual"
  end.

Definition normalize_source (s : option string) : string :=
  lower (strip (source_or_casual s)).

Definition known_source (s : string) : bool :=
  String.eqb s "database" || String.eqb s "document" || String.eqb s "casual".

Definition is_heavy (s : string) : bool :=
  String.eqb s "database" || String.eqb s "document".

Fixpoint dedup_loop (srcs : list (option string)) (seen_sources : list string)
    : list string :=
  match srcs with
  | [] => []
  | source :: rest =>
      let normalized := normalize_source source in
      if negb (known_source normalized) then dedup_loop rest seen_sources
      else if existsb (String.eqb normalized) seen_sources then dedup_loop rest seen_sources
      else normalized :: dedup_loop rest (normalized :: seen_sources)
  end.

(** The loop over [answer_sources or ["casual"]]. *)
Definition dedup_sources (answer_sources : list (option string)) : list string :=
  dedup_loop (match answer_sources with [] => [Some "casual"] | l => l end) [].

Fixpoint cap_loop (srcs : list string) (heavy_seen : bool) : list string :=
  match srcs with
  | [] => []
  | source :: rest =>
      if is_heavy source then
        if heavy_seen then cap_loop rest true else source :: cap_loop rest true
      else source :: cap_loop rest heavy_seen
  end.

(** "Limit heavy services (SQL/document) to the first prioritized source" *)
Definition cap_heavy_sources (deduped : list string) : list string :=
  cap_loop deduped false.

Definition first_heavy (l : list string) : option string := find is_heavy l.

(** ** Requests, responses and conversation history *)

(** [ConversationResponse] of [models/respons_schemas.py] *)
Record ConversationResponse := mkConversationResponse {
  content : string;
  role : string
}.

(** [Chatbot._serialize_context(context, limit)]; [context[-limit:]] for a
    positive [limit], the whole context when [limit] is [None] or [0]. *)
Definition _serialize_context (context : list ConversationResponse)
    (limit : option nat) : string :=
  match context with
  | [] => ""
  | _ =>
      let selected :=
        match limit with
        | Some (S _ as n) => skipn (length context - n) context
        | _ => context
        end in
      String.concat nl (map (fun msg => role msg ++ ": " ++ content msg) selected)
  end.

(** [ChatRequest] of [models/request_schemas.py] ([supportMetadata] is not
    read by the pipeline and is left out). *)
Record ChatRequest := mkChatRequest {
  req_content : string;
  req_context : list ConversationResponse;
  req_account_id : option Z;
  req_siteMap : string;
  req_mode : ChatMode
}.

(** [SupportChatRequest] *)
Record SupportChatRequest := mkSupportChatRequest {
  sreq_message : string;
  sreq_context : option string;
  sreq_user_id : option Z;
  sreq_account_id : option Z
}.

(** [SupportChatResponse] of [models/respons_schemas.py] *)
Record SupportChatResponse := mkSupportChatResponse {
  response : string;
  confidence : float;
  needsHumanSupport : bool;
  intent : string;
  suggestions : list string
}.

(** The back ends the executor can fan out to, and the calls it makes. *)
Inductive Backend := BDatabase | BDocument.

Definition Backend_name (b : Backend) : string :=
  match b with BDatabase => "database" | BDocument => "document" end.

(** [label_map] *)
Definition Backend_label (b : Backend) : string :=
  match b with BDatabase => "Database Result" | BDocument => "Document Result" end.

Inductive Event :=
| CallDatabase (question : string) (account_id : Z)
| CallDocument (question : string) (account_id : Z)
| CallSynthesis.

Definition backend_event (b : Backend) (q : string) (a : Z) : Event :=
  match b with BDatabase => CallDatabase q a | BDocument => CallDocument q a end.

Definition is_backend_call (e : Event) : bool :=
  match e with CallDatabase _ _ | CallDocument _ _ => true | CallSynthesis => false end.

(** An SQL template [(input_text, query, description)]. *)
Definition SqlTemplate : Type := string * string * option string.

(** The [extras] dictionary: [{}], or [sql_templates] with [sql_templates_text]. *)
Definition Extras : Type := option (list SqlTemplate * string).

(** The tuple returned by [_execute_answer_sources]. *)
Record ExecOutput := mkExecOutput {
  processed_result : string;
  raw_result : string;
  combined_usage : ChatbotUsageLog.t;
  active_sources : list string;
  extras : Extras
}.

(** The dictionary built by [_run_chat_pipeline]. *)
Record PipelineOutput := mkPipelineOutput {
  p_answer : string;
  p_raw_result : string;
  p_usage_log : ChatbotUsageLog.t;
  p_sources : list string;
  p_improved_question : string;
  p_extras : Extras
}.

(** The dictionary returned by [interact_with_agent]. *)
Record AgentReply := mkAgentReply {
  a_success : bool;
  a_response : string;
  a_usage_logs : ChatbotUsageLog.t;
  a_conversation_type : string;
  a_improved_question : option string;
  a_mode : option string
}.

Definition apology_tr : string :=
  "Şu anda isteğinizi yerine getiremedim. Lütfen tekrar dener misiniz?".

(** [Chatbot._build_support_error_response()] *)
Definition _build_support_error_response : SupportChatResponse :=
  mkSupportChatResponse "Üzgünüm, bir hata oluştu. Lütfen canlı destek talep edin."
    0%float true "error" ["Canlı destek talep et"].

(** The literal [0.7] of [handle_support_chat], as the binary64 value Python
    reads it. *)
Definition confidence_ok : float := 0x1.6666666666666p-1%float.

(** [ValidationError] and [ValueError] are what the inner [except] catches. *)
Definition is_parse_error (e : exn) : bool :=
  match e with ValidationError _ | ValueError _ => true | _ => false end.

(** Truthiness of an [Optional[int]] account id. *)
Definition account_truthy (a : option Z) : bool :=
  match a with Some z => negb (Z.eqb z 0) | None => false end.

Section Pipeline.

(** The routing completion: [build_routing_prompt] from the question, the
    serialised history, the mode and the site map, sent through
    [openrouter_service.generate_text]; it yields the response content and
    the usages it recorded into the [usage_log] it was given. *)
Variable routing_generate_text :
  string -> string -> ChatMode -> string -> result (string * list ModelUsage.t).

(** [DetermineAnswerSourceResult.model_validate_json]. *)
Variable model_validate_json : string -> result DetermineAnswerSourceResult.

(** [advanced_database_chat(question=..., account_id=...)] and
    [advanced_document_chat(...)]: [(content, usage)], either may be [None]. *)
Variable advanced_database_chat :
  string -> Z -> result (option string * option ChatbotUsageLog.t).
Variable advanced_document_chat :
  string -> Z -> result (option string * option ChatbotUsageLog.t).

(** The synthesis completion: [build_service_response_prompt] from the
    question, the active source types, the raw result and the history, sent
    through [generate_text]. *)
Variable synthesis_generate_text :
  string -> list string -> string -> string -> result (string * list ModelUsage.t).

(** [sql_query_agent_service.chatbot_sql_templates]. *)
Variable chatbot_sql_templates : list SqlTemplate.

(** [Chatbot.plan_answer_route]; the outer [except Exception] turns every
    exception of the routing step into the [["document"]] default. *)
Definition plan_answer_route (question : string) (context : list ConversationResponse)
    (site_map : string) (mode : ChatMode)
    : list string * string * ChatbotUsageLog.t * option string :=
  let sanitized_history := _serialize_context context (Some 5%nat) in
  let error_default e :=
    (["document"], question, ChatbotUsageLog.create_error_log (str_exn e), None) in
  match routing_generate_text question sanitized_history mode site_map with
  | Raise e => error_default e
  | Return (resp_content, usages) =>
      let usage_log := ChatbotUsageLog.record_usages ChatbotUsageLog.new usages in
      let parsed :=
        match model_validate_json (strip resp_content) with
        | Raise e =>
            if is_parse_error e then Return (["casual"], question, None) else Raise e
        | Return parsed_response =>
            let normalized_sources := prioritized_sources parsed_response in
            let normalized_sources :=
              match mode with
              | SUPPORT =>
                  if existsb (AnswerSource_eqb casual) normalized_sources
                  then [casual] else normalized_sources
              | STANDARD => normalized_sources
              end in
            let srcs := match normalized_sources with
                        | [] => ["casual"]
                        | l => map AnswerSource_str l
                        end in
            let cleaned_question := strip (improved_question parsed_response) in
            let improved := if str_truthy cleaned_question then cleaned_question
                            else question in
            let text_response :=
              strip (match casual_response parsed_response with
                     | Some s => s | None => "" end) in
            let casual_answer := if str_truthy text_response then Some text_response
                                 else None in
            Return (srcs, improved, casual_answer)
        end in
      match parsed with
      | Raise e => error_default e
      | Return (srcs, improved, casual_answer) =>
          let requires_structured := existsb is_heavy srcs in
          if requires_structured then (srcs, improved, usage_log, None)
          else
            (srcs, question, usage_log,
             Some (match casual_answer with Some a => a | None => apology_tr end))
      end
  end.

(** [self._format_sql_templates()]: the rendered text and the list. *)
Definition _format_sql_templates : string * list SqlTemplate :=
  match chatbot_sql_templates with
  | [] => ("", [])
  | templates =>
      let render (t : SqlTemplate) :=
        let '(input_text, query, description) := t in
        let d := match description with
                 | Some x => if str_truthy x then x else "—"
                 | None => "—"
                 end in
        "Input: " ++ input_text ++ nl ++ "Query: " ++ query ++ nl ++
        "Description: " ++ d in
      (String.concat (nl ++ nl) (map render templates), templates)
  end.

Definition call_backend (b : Backend) (question : string) (account_id : Z)
    : result (option string * option ChatbotUsageLog.t) :=
  match b with
  | BDatabase => advanced_database_chat question account_id
  | BDocument => advanced_document_chat question account_id
  end.

Fixpoint collect_outcomes (outs : list (Backend * result (option string * option ChatbotUsageLog.t)))
    : result (list (Backend * (option string * option ChatbotUsageLog.t))) :=
  match outs with
  | [] => Return []
  | (b, Raise e) :: _ => Raise e
  | (b, Return o) :: rest =>
      match collect_outcomes rest with
      | Return os => Return ((b, o) :: os)
      | Raise e => Raise e
      end
  end.

(** [await asyncio.gather(...)] over the coroutines: every call is started; the results come
    back in argument order, and a failure of any call is raised (the first one
    in argument order: the heavy-source cap leaves at most one call anyway). *)
Definition gather (async_calls : list Backend) (question : string) (account_id : Z)
    : list Event * result (list (Backend * (option string * option ChatbotUsageLog.t))) :=
  (map (fun b => backend_event b question account_id) async_calls,
   collect_outcomes (map (fun b => (b, call_backend b question account_id)) async_calls)).

(** The loop over [zip(async_calls, gathered)]: the merged usage, the active
    sources and [section_texts] (latest entry first, as a dict assignment). *)
Definition merge_outcomes (combined : ChatbotUsageLog.t)
    (gathered : list (Backend * (option string * option ChatbotUsageLog.t)))
    : ChatbotUsageLog.t * list Backend * list (Backend * string) :=
  fold_left
    (fun acc x =>
       let '(cu, active, section_texts) := acc in
       let '(name, (c, usage)) := x in
       (_update_usage_log cu usage, app active [name],
        (name, strip (match c with Some t => t | None => "" end)) :: section_texts))
    gathered (combined, [], []).

(** [section_texts.get(name, "")] *)
Definition section_get (section_texts : list (Backend * string)) (b : Backend) : string :=
  match find (fun p => match fst p, b with
                       | BDatabase, BDatabase | BDocument, BDocument => true
                       | _, _ => false end) section_texts with
  | Some (_, t) => t
  | None => ""
  end.

(** The combined raw result of the merge step. *)
Definition combine_sections (active : list Backend) (section_texts : list (Backend * string))
    : string :=
  match active with
  | [name] => section_get section_texts name
  | _ =>
      strip (String.concat (nl ++ nl)
               (map (fun name => Backend_label name ++ ":" ++ nl ++ section_get section_texts name)
                    active))
  end.

(** [if not deduped_sources: deduped_sources = ["casual"]] *)
Definition default_casual (deduped_sources : list string) : list string :=
  match deduped_sources with [] => ["casual"] | l => l end.

(** The back ends put in [async_calls], database first. *)
Definition async_calls_of (deduped_sources : list string) : list Backend :=
  app (if existsb (String.eqb "database") deduped_sources then [BDatabase] else [])
      (if existsb (String.eqb "document") deduped_sources then [BDocument] else []).

(** [Chatbot._execute_answer_sources]: the events it causes and its outcome. *)
Definition _execute_answer_sources (answer_sources : list (option string))
    (question : string) (context : list ConversationResponse) (account_id : option Z)
    : list Event * result ExecOutput :=
  let deduped_sources := cap_heavy_sources (dedup_sources answer_sources) in
  match account_id with
  | Some acc =>
      if negb (account_truthy account_id) then
        ([], Raise (ChatbotException "Structured sources require a valid account_id."))
      else
      let deduped_sources := default_casual deduped_sources in
      let async_calls := async_calls_of deduped_sources in
      let '(calls, gathered) := gather async_calls question acc in
      match gathered with
      | Raise e => (calls, Raise e)
      | Return outcomes =>
          let '(combined_usage, active, section_texts) :=
            merge_outcomes ChatbotUsageLog.new outcomes in
          let active_names := map Backend_name active in
          let result := combine_sections active section_texts in
          let '(result, extras) :=
            if existsb (String.eqb "database") active_names then
              let '(ttext, tlist) := _format_sql_templates in
              let result :=
                if str_truthy ttext then
                  let suffix := strip ("Kullanılabilir SQL Şablonları:" ++ nl ++ ttext) in
                  strip (result ++ nl ++ nl ++ suffix)
                else result in
              (result, Some (tlist, ttext))
            else (result, None) in
          let history := _serialize_context context None in
          let '(processed, combined_usage) :=
            match synthesis_generate_text question active_names result history with
            | Return (resp_content, usages) =>
                let processing_usage :=
                  ChatbotUsageLog.record_usages ChatbotUsageLog.new usages in
                (strip resp_content, _update_usage_log combined_usage (Some processing_usage))
            | Raise e =>
                (result, _update_usage_log combined_usage
                           (Some (ChatbotUsageLog.create_error_log (str_exn e))))
            end in
          (app calls [CallSynthesis],
           Return (mkExecOutput processed result combined_usage active_names extras))
      end
  | None => ([], Raise (ChatbotException "Structured sources require a valid account_id."))
  end.

(** [Chatbot._run_chat_pipeline]; [plan_answer_route] never raises. *)
Definition _run_chat_pipeline (message : string) (context : list ConversationResponse)
    (account_id : option Z) (site_map : string) (mode : ChatMode) (raise_on_error : bool)
    : list Event * result PipelineOutput :=
  let aggregated_usage := ChatbotUsageLog.new in
  let '(answer_sources, refined_question, source_usage, immediate_response) :=
    plan_answer_route message context site_map mode in
  let aggregated_usage := _update_usage_log aggregated_usage (Some source_usage) in
  match immediate_response with
  | Some immediate =>
      ([], Return (mkPipelineOutput immediate immediate aggregated_usage
                     (match answer_sources with [] => ["casual"] | l => l end)
                     message None))
  | None =>
      let active_question := refined_question in
      let '(events, r) :=
        _execute_answer_sources (map Some answer_sources) active_question context account_id in
      match r with
      | Return o =>
          (events, Return (mkPipelineOutput (processed_result o) (raw_result o)
                             (_update_usage_log aggregated_usage (Some (combined_usage o)))
                             (active_sources o) active_question (extras o)))
      | Raise exc =>
          if raise_on_error then (events, Raise exc)
          else (events, Return (mkPipelineOutput "" ""
                                  (ChatbotUsageLog.create_error_log (str_exn exc))
                                  ["casual"] message None))
      end
  end.

(** [Chatbot.interact_with_agent] *)
Definition interact_with_agent (request : ChatRequest) : list Event * AgentReply :=
  let raise_on_error :=
    match req_mode request with SUPPORT => false | STANDARD => true end in
  let '(events, r) :=
    _run_chat_pipeline (req_content request) (req_context request)
      (req_account_id request) (req_siteMap request) (req_mode request) raise_on_error in
  match r with
  | Return pipeline =>
      (events, mkAgentReply true (p_answer pipeline) (p_usage_log pipeline)
                 (String.concat ", " (p_sources pipeline))
                 (Some (p_improved_question pipeline))
                 (Some (ChatMode_value (req_mode request))))
  | Raise e =>
      (events, mkAgentReply false
                 "I encountered an error processing your request. Please try again."
                 (ChatbotUsageLog.create_error_log (str_exn e)) "error" None None)
  end.

(** [Chatbot.handle_support_chat] *)
Definition handle_support_chat (request : SupportChatRequest)
    : list Event * SupportChatResponse :=
  let chat_request :=
    mkChatRequest (sreq_message request) [] (sreq_account_id request) "" SUPPORT in
  let '(events, agent_response) := interact_with_agent chat_request in
  let base_response := strip (a_response agent_response) in
  if negb (str_truthy base_response) then (events, _build_support_error_response)
  else (events, mkSupportChatResponse base_response confidence_ok false "general" []).

End Pipeline.

(** ** Concrete collaborators, for evaluating the pipeline on given inputs *)

Definition routing_returns (c : string)
    : string -> string -> ChatMode -> string -> result (string * list ModelUsage.t) :=
  fun _ _ _ _ => Return (c, []).

Definition validate_to (r : DetermineAnswerSourceResult)
    : string -> result DetermineAnswerSourceResult :=
  fun _ => Return r.

Definition backend_returns (c : option string) (u : option ChatbotUsageLog.t)
    : string -> Z -> result (option string * option ChatbotUsageLog.t) :=
  fun _ _ => Return (c, u).

Definition backend_raises (e : exn)
    : string -> Z -> result (option string * option ChatbotUsageLog.t) :=
  fun _ _ => Raise e.

Definition synthesis_returns (c : string)
    : string -> list string -> string -> string -> result (string * list ModelUsage.t) :=
  fun _ _ _ _ => Return (c, []).

Definition synthesis_raises (e : exn)
    : string -> list string -> string -> string -> result (string * list ModelUsage.t) :=
  fun _ _ _ _ => Raise e.

(** The back end that serves a heavy tag. *)
Definition backend_of_tag (h : string) : Backend :=
  if String.eqb h "database" then BDatabase else BDocument.

(** ** Sanity checks on small inputs *)

Example strip_ex : strip ("  Hello world " ++ nl) = "Hello world".
Proof. reflexivity. Qed.

Example dedup_ex :
  dedup_sources [Some " Document"; None; Some "DATABASE"; Some "document"; Some "sql"]
  = ["document"; "casual"; "database"].
Proof. reflexivity. Qed.

Example cap_ex :
  cap_heavy_sources ["document"; "casual"; "database"] = ["document"; "casual"].
Proof. reflexivity. Qed.

Example prioritized_ex :
  prioritized_sources (mkDASR [casual; document] "q" None) = [document].
Proof. reflexivity. Qed.

(** ** Lemmas *)

Open Scope list_scope.

Lemma is_heavy_true (s : string) :
  is_heavy s = true <-> s = "database" \/ s = "document".
Proof.
  unfold is_heavy. rewrite orb_true_iff, !String.eqb_eq. tauto.
Qed.

Lemma cap_loop_seen (l : list string) :
  cap_loop l true = filter (fun s => negb (is_heavy s)) l.
Proof.
  induction l as [|a l IH]; simpl; [reflexivity|].
  destruct (is_heavy a); simpl; rewrite IH; reflexivity.
Qed.

Lemma filter_heavy_light (l : list string) :
  filter is_heavy (filter (fun s => negb (is_heavy s)) l) = [].
Proof.
  induction l as [|b l IH]; simpl; [reflexivity|].
  destruct (is_heavy b) eqn:Hb; simpl; [exact IH|]. rewrite Hb. exact IH.
Qed.

Lemma cap_loop_heavy (l : list string) :
  filter is_heavy (cap_loop l false) =
  match first_heavy l with Some h => [h] | None => [] end.
Proof.
  unfold first_heavy. induction l as [|a l IH]; simpl; [reflexivity|].
  destruct (is_heavy a) eqn:Ha; simpl.
  - rewrite Ha, cap_loop_seen. f_equal. apply filter_heavy_light.
  - rewrite Ha. exact IH.
Qed.

Lemma cap_loop_in (l : list string) (s : string) :
  In s (cap_loop l false) <->
  In s l /\ (is_heavy s = false \/ first_heavy l = Some s).
Proof.
  unfold first_heavy. induction l as [|a l IH]; simpl; [tauto|].
  destruct (is_heavy a) eqn:Ha; simpl.
  - rewrite cap_loop_seen, filter_In. split.
    + intros [<-|[Hin Hs]]; [tauto|].
      split; [tauto|]. left. now apply negb_true_iff.
    + intros [[<-|Hin] [Hs|Hs]]; try tauto.
      * right. split; [exact Hin|]. now rewrite Hs.
      * injection Hs as <-. tauto.
  - rewrite IH. split.
    + intros [<-|[Hin Hs]]; [tauto|]. tauto.
    + intros [[<-|Hin] Hs]; [tauto|]. tauto.
Qed.

Lemma record_usages_model_usages (l : ChatbotUsageLog.t) (us : list ModelUsage.t) :
  ChatbotUsageLog.model_usages (ChatbotUsageLog.record_usages l us) =
  ChatbotUsageLog.model_usages l ++ us.
Proof.
  unfold ChatbotUsageLog.record_usages.
  revert l. induction us as [|u us IH]; intros l; cbn [fold_left].
  - now rewrite app_nil_r.
  - rewrite IH. destruct u. simpl. now rewrite <- app_assoc.
Qed.

Lemma add_usage_consistent l m pt ct tt c rt :
  ChatbotUsageLog.totals_consistent l ->
  ChatbotUsageLog.totals_consistent (ChatbotUsageLog.add_usage l m pt ct tt c rt).
Proof.
  unfold ChatbotUsageLog.totals_consistent, ChatbotUsageLog.sum_tokens,
    ChatbotUsageLog.sum_cost, ChatbotUsageLog.sum_time.
  intros (Ht & Hc & Hr). simpl.
  rewrite !fold_left_app. simpl. rewrite <- Ht, <- Hc, <- Hr. auto.
Qed.

Lemma record_usages_consistent (l : ChatbotUsageLog.t) (us : list ModelUsage.t) :
  ChatbotUsageLog.totals_consistent l ->
  ChatbotUsageLog.totals_consistent (ChatbotUsageLog.record_usages l us).
Proof.
  unfold ChatbotUsageLog.record_usages.
  revert l. induction us as [|u us IH]; intros l Hl; cbn [fold_left]; [exact Hl|].
  apply IH, add_usage_consistent, Hl.
Qed.

(** Merging an error log adds nothing: it has no usage entries. *)
Lemma update_with_error_log (target : ChatbotUsageLog.t) (msg : string) :
  _update_usage_log target (Some (ChatbotUsageLog.create_error_log msg)) = target.
Proof. reflexivity. Qed.

(** ** Heavy-source cap, priority filter and usage totals *)

(** C1: after normalisation and dedup, the heavy-source cap of
    [_execute_answer_sources] keeps exactly the first heavy tag of the
    deduplicated order (so at most one of database and document), drops every
    later heavy tag, and keeps every other tag, casual included. *)
Theorem heavy_source_cap (answer_sources : list (option string)) :
  let deduped := dedup_sources answer_sources in
  let capped := cap_heavy_sources deduped in
  filter is_heavy capped = match first_heavy deduped with Some h => [h] | None => [] end /\
  (length (filter is_heavy capped) <= 1)%nat /\
  (forall s, In s capped <->
             In s deduped /\ (is_heavy s = false \/ first_heavy deduped = Some s)) /\
  (In "casual" deduped -> In "casual" capped).
Proof.
  intros deduped capped.
  assert (Hf : filter is_heavy capped =
               match first_heavy deduped with Some h => [h] | None => [] end)
    by apply cap_loop_heavy.
  split; [exact Hf|]. split.
  { rewrite Hf. destruct (first_heavy deduped); simpl; lia. }
  split; [intros s; apply cap_loop_in|].
  intros Hc. apply cap_loop_in. split; [exact Hc|]. left. reflexivity.
Qed.

(** C2: when a parsed decision lists more than one source and casual among
    them, [prioritized_sources] keeps casual only as the sole entry
    [["casual"]], and only when every listed source was casual. *)
Theorem prioritized_sources_drop_casual (r : DetermineAnswerSourceResult)
    (Hlen : (1 < length (sources r))%nat) (Hin : In casual (sources r)) :
  ~ In casual (prioritized_sources r) \/
  (prioritized_sources r = [casual] /\ Forall (fun s => s = casual) (sources r)).
Proof.
  unfold prioritized_sources.
  destruct (sources r) as [|a l] eqn:Hs; [simpl in Hlen; lia|].
  assert (Hex : existsb (AnswerSource_eqb casual) (a :: l) = true).
  { apply existsb_exists. exists casual. split; [exact Hin|reflexivity]. }
  assert (Hlt : (1 <? length (a :: l))%nat = true) by (apply Nat.ltb_lt; exact Hlen).
  rewrite Hlt, Hex. simpl andb. cbv iota.
  destruct (filter (fun s => negb (AnswerSource_eqb s casual)) (a :: l)) as [|b m] eqn:Hf.
  - right. split; [reflexivity|].
    apply Forall_forall. intros x Hx.
    destruct (negb (AnswerSource_eqb x casual)) eqn:Hx'.
    + assert (In x []) as [].
      { rewrite <- Hf. apply filter_In. split; assumption. }
    + destruct x; simpl in Hx'; try discriminate; reflexivity.
  - left. rewrite <- Hf. intros Hc. apply filter_In in Hc as [_ Hc].
    discriminate Hc.
Qed.

Lemma prioritized_sources_drop_casual_witness :
  ((1 < length (sources (mkDASR [casual; document] "q" None)))%nat /\
   In casual (sources (mkDASR [casual; document] "q" None))) /\
  (~ In casual (prioritized_sources (mkDASR [casual; document] "q" None)) \/
   (prioritized_sources (mkDASR [casual; document] "q" None) = [casual] /\
    Forall (fun s => s = casual) (sources (mkDASR [casual; document] "q" None)))).
Proof.
  split; [split; simpl; [lia | tauto]|].
  apply (prioritized_sources_drop_casual (mkDASR [casual; document] "q" None));
    simpl; [lia | tauto].
Defined.

(** C6: the running totals of a usage log equal the sums of the matching
    fields over [model_usages] for a fresh log and an error log, and stay so
    under [add_usage] and under any sequence of [_update_usage_log] merges,
    which append the merged entries in order. *)
Theorem usage_log_totals_invariant :
  ChatbotUsageLog.totals_consistent ChatbotUsageLog.new /\
  (forall msg,
     ChatbotUsageLog.totals_consistent (ChatbotUsageLog.create_error_log msg) /\
     ChatbotUsageLog.model_usages (ChatbotUsageLog.create_error_log msg) = []) /\
  (forall l m pt ct tt c rt,
     ChatbotUsageLog.totals_consistent l ->
     ChatbotUsageLog.totals_consistent (ChatbotUsageLog.add_usage l m pt ct tt c rt)) /\
  (forall (target : ChatbotUsageLog.t) (merged : list (option ChatbotUsageLog.t)),
     ChatbotUsageLog.totals_consistent target ->
     ChatbotUsageLog.totals_consistent (fold_left _update_usage_log merged target) /\
     ChatbotUsageLog.model_usages (fold_left _update_usage_log merged target) =
     ChatbotUsageLog.model_usages target ++
     concat (map (fun s => match s with
                           | Some x => ChatbotUsageLog.model_usages x
                           | None => []
                           end) merged)).
Proof.
  split; [repeat split; reflexivity|].
  split; [intros msg; repeat split; reflexivity|].
  split; [exact add_usage_consistent|].
  intros target merged. revert target.
  induction merged as [|s merged IH]; intros target Ht; simpl.
  - split; [exact Ht|]. now rewrite app_nil_r.
  - destruct s as [x|]; simpl.
    + destruct (IH (ChatbotUsageLog.record_usages target (ChatbotUsageLog.model_usages x)))
        as [H1 H2]; [apply record_usages_consistent, Ht|].
      split; [exact H1|]. rewrite H2, record_usages_model_usages. symmetry. apply app_assoc.
    + exact (IH target Ht).
Qed.

(** ** The account precondition of the executor *)

Lemma execute_without_account db doc syn tpl answer_sources question context account_id :
  account_truthy account_id = false ->
  _execute_answer_sources db doc syn tpl answer_sources question context account_id =
  ([], Raise (ChatbotException "Structured sources require a valid account_id.")).
Proof.
  intros Hacc. unfold _execute_answer_sources.
  destruct account_id as [a|]; [|reflexivity].
  rewrite Hacc. reflexivity.
Qed.

(** C4: when a structured source (database or document) survives the dedup
    and the cap and the account id is absent or zero, the executor raises a
    [ChatbotException] and no database or document call is made. *)
Theorem structured_source_requires_account db doc syn tpl
    (answer_sources : list (option string)) (question : string)
    (context : list ConversationResponse) (account_id : option Z)
    (Hheavy : exists s, In s (cap_heavy_sources (dedup_sources answer_sources)) /\
                        is_heavy s = true)
    (Hacc : account_id = None \/ account_id = Some 0%Z) :
  filter is_backend_call
    (fst (_execute_answer_sources db doc syn tpl answer_sources question context account_id))
    = [] /\
  exists msg,
    snd (_execute_answer_sources db doc syn tpl answer_sources question context account_id)
    = Raise (ChatbotException msg).
Proof.
  rewrite execute_without_account.
  - split; [reflexivity|]. eexists. reflexivity.
  - destruct Hacc as [-> | ->]; reflexivity.
Qed.

Lemma structured_source_requires_account_witness :
  ((exists s, In s (cap_heavy_sources (dedup_sources [Some "Database"])) /\
              is_heavy s = true) /\
   (@None Z = None \/ @None Z = Some 0%Z)) /\
  (filter is_backend_call
     (fst (_execute_answer_sources (backend_returns (Some "rows") None)
             (backend_returns (Some "docs") None) (synthesis_returns "ok") []
             [Some "Database"] "q" [] None)) = [] /\
   exists msg,
     snd (_execute_answer_sources (backend_returns (Some "rows") None)
            (backend_returns (Some "docs") None) (synthesis_returns "ok") []
            [Some "Database"] "q" [] None) = Raise (ChatbotException msg)).
Proof.
  split.
  - split; [exists "database"; split; [simpl; tauto | reflexivity] | left; reflexivity].
  - apply (structured_source_requires_account (backend_returns (Some "rows") None)
             (backend_returns (Some "docs") None) (synthesis_returns "ok") []
             [Some "Database"] "q" [] None).
    + exists "database". split; [simpl; tauto | reflexivity].
    + left. reflexivity.
Defined.

(** C10: with the account id absent or zero the executor raises the
    missing-account [ChatbotException] before any call, whatever the source
    list: casual only, empty or unknown tags included. *)
Theorem execute_account_check_unconditional db doc syn tpl
    (answer_sources : list (option string)) (question : string)
    (context : list ConversationResponse) (account_id : option Z)
    (Hacc : account_id = None \/ account_id = Some 0%Z) :
  _execute_answer_sources db doc syn tpl answer_sources question context account_id =
  ([], Raise (ChatbotException "Structured sources require a valid account_id.")).
Proof.
  apply execute_without_account. destruct Hacc as [-> | ->]; reflexivity.
Qed.

Lemma execute_account_check_unconditional_witness :
  (Some 0%Z = None \/ Some 0%Z = Some 0%Z) /\
  _execute_answer_sources (backend_returns (Some "rows") None)
    (backend_returns (Some "docs") None) (synthesis_returns "hello") []
    [Some "casual"] "hi" [] (Some 0%Z) =
  ([], Raise (ChatbotException "Structured sources require a valid account_id.")).
Proof.
  split; [right; reflexivity|].
  apply (execute_account_check_unconditional (backend_returns (Some "rows") None)
           (backend_returns (Some "docs") None) (synthesis_returns "hello") []
           [Some "casual"] "hi" [] (Some 0%Z)).
  right. reflexivity.
Defined.

(** ** Routing failures *)

(** C5: when the routing step raises an exception that the inner parse
    handler does not catch (the completion call fails, or validation fails
    with something other than [ValidationError]/[ValueError]),
    [plan_answer_route] returns [(["document"], question, error log, None)]. *)
Theorem plan_answer_route_error_default rt validate (question : string)
    (context : list ConversationResponse) (site_map : string) (mode : ChatMode) (e : exn)
    (Hraise :
       rt question (_serialize_context context (Some 5%nat)) mode site_map = Raise e \/
       exists c us,
         rt question (_serialize_context context (Some 5%nat)) mode site_map = Return (c, us) /\
         validate (strip c) = Raise e /\ is_parse_error e = false) :
  plan_answer_route rt validate question context site_map mode =
  (["document"], question, ChatbotUsageLog.create_error_log (str_exn e), None).
Proof.
  unfold plan_answer_route.
  destruct Hraise as [H | (c & us & H & Hv & Hp)]; rewrite H; [reflexivity|].
  rewrite Hv, Hp. reflexivity.
Qed.

Lemma plan_answer_route_error_default_witness :
  (routing_returns "{}" "hi" (_serialize_context [] (Some 5%nat)) STANDARD "" =
     Raise (RuntimeError "timeout") \/
   exists c us,
     routing_returns "{}" "hi" (_serialize_context [] (Some 5%nat)) STANDARD "" =
       Return (c, us) /\
     (fun _ : string => Raise (RuntimeError "bad payload") : result DetermineAnswerSourceResult)
       (strip c) = Raise (RuntimeError "bad payload") /\
     is_parse_error (RuntimeError "bad payload") = false) /\
  plan_answer_route (routing_returns "{}")
    (fun _ => Raise (RuntimeError "bad payload")) "hi" [] "" STANDARD =
  (["document"], "hi", ChatbotUsageLog.create_error_log "bad payload", None).
Proof.
  split.
  - right. exists "{}", []. split; [reflexivity|]. split; reflexivity.
  - apply (plan_answer_route_error_default (routing_returns "{}")
             (fun _ => Raise (RuntimeError "bad payload")) "hi" [] "" STANDARD
             (RuntimeError "bad payload")).
    right. exists "{}", []. split; [reflexivity|]. split; reflexivity.
Defined.

(** ** Fan-out of the executor *)

Lemma collect_outcomes_length outs os :
  collect_outcomes outs = Return os -> length os = length outs.
Proof.
  revert os. induction outs as [|[b [o|e]] outs IH]; intros os H; simpl in H.
  - injection H as <-. reflexivity.
  - destruct (collect_outcomes outs) as [os'|e] eqn:Hc; [|discriminate].
    injection H as <-. simpl. f_equal. apply IH. reflexivity.
  - discriminate.
Qed.

Lemma merge_outcomes_active combined g :
  snd (fst (merge_outcomes combined g)) = map fst g.
Proof.
  unfold merge_outcomes.
  assert (Hgen : forall cu a s,
    snd (fst (fold_left
      (fun acc x =>
         let '(cu, active, section_texts) := acc in
         let '(name, (c, usage)) := x in
         (_update_usage_log cu usage, app active [name],
          (name, strip (match c with Some t => t | None => "" end)) :: section_texts))
      g (cu, a, s))) = a ++ map fst g).
  { induction g as [|[n [c u]] g IH]; intros cu a s; simpl.
    - now rewrite app_nil_r.
    - rewrite IH. now rewrite <- app_assoc. }
  apply Hgen.
Qed.

Lemma backend_events_are_calls (l : list Backend) q a :
  filter is_backend_call (map (fun b => backend_event b q a) l) =
  map (fun b => backend_event b q a) l.
Proof.
  induction l as [|b l IH]; simpl; [reflexivity|].
  destruct b; simpl; now rewrite IH.
Qed.

(** The database and the document back ends are never both selected. *)
Lemma not_both_heavy (answer_sources : list (option string)) :
  let d := default_casual (cap_heavy_sources (dedup_sources answer_sources)) in
  existsb (String.eqb "database") d = true ->
  existsb (String.eqb "document") d = true -> False.
Proof.
  intros d.
  assert (Hf := cap_loop_heavy (dedup_sources answer_sources)).
  fold (cap_heavy_sources (dedup_sources answer_sources)) in Hf.
  unfold d, default_casual. destruct (cap_heavy_sources (dedup_sources answer_sources)) as [|x l] eqn:Hc.
  - simpl. discriminate.
  - rewrite <- Hc in *. intros Hdb Hdoc.
    apply existsb_exists in Hdb as [s1 [Hs1 E1]]. apply String.eqb_eq in E1. subst s1.
    apply existsb_exists in Hdoc as [s2 [Hs2 E2]]. apply String.eqb_eq in E2. subst s2.
    assert (H1 : In "database" (filter is_heavy (cap_heavy_sources (dedup_sources answer_sources))))
      by (apply filter_In; auto).
    assert (H2 : In "document" (filter is_heavy (cap_heavy_sources (dedup_sources answer_sources))))
      by (apply filter_In; auto).
    rewrite Hf in H1, H2.
    destruct (first_heavy (dedup_sources answer_sources)) as [h|]; simpl in H1, H2;
      [|contradiction].
    destruct H1 as [H1|[]]; destruct H2 as [H2|[]]. congruence.
Qed.

Lemma async_calls_at_most_one (answer_sources : list (option string)) :
  (length (async_calls_of (default_casual (cap_heavy_sources (dedup_sources answer_sources))))
   <= 1)%nat.
Proof.
  set (d := default_casual (cap_heavy_sources (dedup_sources answer_sources))).
  assert (H : existsb (String.eqb "database") d = true ->
              existsb (String.eqb "document") d = true -> False)
    by exact (not_both_heavy answer_sources).
  unfold async_calls_of.
  destruct (existsb (String.eqb "database") d), (existsb (String.eqb "document") d);
    simpl; try lia; exfalso; apply H; reflexivity.
Qed.

Lemma execute_calls_at_most_one db doc syn tpl answer_sources question context account_id :
  (length (filter is_backend_call
     (fst (_execute_answer_sources db doc syn tpl answer_sources question context account_id)))
     <= 1)%nat /\
  (forall o,
     snd (_execute_answer_sources db doc syn tpl answer_sources question context account_id)
     = Return o -> (length (active_sources o) <= 1)%nat).
Proof.
  assert (Hn := async_calls_at_most_one answer_sources).
  unfold _execute_answer_sources, gather.
  destruct account_id as [a|]; [|split; [simpl; lia | discriminate]].
  destruct (negb (account_truthy (Some a))); [split; [simpl; lia | discriminate]|].
  cbv zeta.
  set (calls := async_calls_of _) in *.
  destruct (collect_outcomes (map (fun b => (b, call_backend db doc b question a)) calls))
    as [outcomes|e] eqn:Hc.
  - apply collect_outcomes_length in Hc. rewrite length_map in Hc.
    assert (Ha := merge_outcomes_active ChatbotUsageLog.new outcomes).
    destruct (merge_outcomes ChatbotUsageLog.new outcomes) as [[cu active] secs].
    simpl in Ha. cbn iota.
    destruct (existsb (String.eqb "database") (map Backend_name active));
      [destruct (_format_sql_templates tpl)|];
      match goal with |- context [syn ?q ?s ?r ?h] => destruct (syn q s r h) as [[rc us]|e] end;
      (split;
       [ simpl; rewrite filter_app, backend_events_are_calls, length_app, length_map;
         simpl; lia
       | intros o Ho; injection Ho as <-; simpl; rewrite length_map, Ha, length_map;
         lia ]).
  - split; [simpl; rewrite backend_events_are_calls, length_map; lia | discriminate].
Qed.

(** ** Support-mode routing *)

(** After [prioritized_sources], casual is present only as the sole entry. *)
Lemma support_collapse_noop (r : DetermineAnswerSourceResult) :
  (if existsb (AnswerSource_eqb casual) (prioritized_sources r)
   then [casual] else prioritized_sources r) = prioritized_sources r.
Proof.
  unfold prioritized_sources.
  destruct (sources r) as [|a l]; [reflexivity|].
  destruct ((1 <? length (a :: l))%nat && existsb (AnswerSource_eqb casual) (a :: l))
    eqn:Hc.
  - destruct (filter (fun s => negb (AnswerSource_eqb s casual)) (a :: l)) as [|b m] eqn:Hf;
      [reflexivity|].
    destruct (existsb (AnswerSource_eqb casual) (b :: m)) eqn:He; [|reflexivity].
    apply existsb_exists in He as [x [Hx Ex]].
    rewrite <- Hf in Hx. apply filter_In in Hx as [_ Hx].
    destruct x; discriminate.
  - destruct (existsb (AnswerSource_eqb casual) (a :: l)) eqn:He; [|reflexivity].
    rewrite andb_true_r in Hc. apply Nat.ltb_ge in Hc.
    destruct l as [|b l]; [|simpl in Hc; lia].
    destruct a; try discriminate He. reflexivity.
Qed.

(** C3 (support mode): the collapse of a casual-containing decision to
    [["casual"]] is checked after [prioritized_sources] has already removed
    casual, so it never changes the decision; a support-mode decision
    [["casual"; "document"]] is routed to [["document"]]. *)
Theorem support_mode_casual_not_collapsed :
  (forall r : DetermineAnswerSourceResult,
     (if existsb (AnswerSource_eqb casual) (prioritized_sources r)
      then [casual] else prioritized_sources r) = prioritized_sources r) /\
  plan_answer_route (routing_returns "{}")
    (validate_to (mkDASR [casual; document] "What is the fire procedure?" None))
    "What is the fire procedure?" [] "" SUPPORT =
  (["document"], "What is the fire procedure?", ChatbotUsageLog.new, None).
Proof.
  split; [exact support_collapse_noop | reflexivity].
Qed.

(** ** Synthesis failure *)

Definition doc_usage : ModelUsage.t :=
  ModelUsage.mk "semantic-search" 10%Z 5%Z 15%Z 0.5%float 120%Z.

Definition doc_log : ChatbotUsageLog.t :=
  ChatbotUsageLog.record_usages ChatbotUsageLog.new [doc_usage].

(** C7 (synthesis failure): the executor falls back to the raw text, but the
    error log it merges has no usage entry, so the merged log is left exactly
    as it was: a document-only run whose synthesis raises returns the document
    back end's log, still a success log with one entry and no message. *)
Theorem synthesis_failure_not_recorded :
  (forall (target : ChatbotUsageLog.t) (msg : string),
     _update_usage_log target (Some (ChatbotUsageLog.create_error_log msg)) = target) /\
  _execute_answer_sources (backend_returns None None)
    (backend_returns (Some "Policy text") (Some doc_log))
    (synthesis_raises (RuntimeError "timeout")) [] [Some "document"] "q" [] (Some 7%Z) =
  ([CallDocument "q" 7%Z; CallSynthesis],
   Return (mkExecOutput "Policy text" "Policy text" doc_log ["document"] None)) /\
  ChatbotUsageLog.model_usages doc_log = [doc_usage] /\
  ChatbotUsageLog.status doc_log = Status.SUCCESS /\
  ChatbotUsageLog.message doc_log = None.
Proof.
  split; [exact update_with_error_log|].
  split; [reflexivity|]. repeat split; reflexivity.
Qed.

(** ** The merge step *)

(** C8, counterexample: a single document result with surrounding blanks is
    not kept verbatim, the combined raw result is trimmed. *)
Lemma merge_step_verbatim_counterexample :
  match snd (_execute_answer_sources (backend_returns None None)
               (backend_returns (Some " Policy text ") None) (synthesis_returns "ok") []
               [Some "document"] "q" [] (Some 7%Z)) with
  | Return o => active_sources o = ["document"] /\ raw_result o = "Policy text" /\
                raw_result o <> " Policy text "
  | Raise _ => False
  end.
Proof. vm_compute. split; [reflexivity|]. split; [reflexivity | discriminate]. Qed.

(** C8, amended: with one active source the merge step yields that source's
    text trimmed of surrounding whitespace; the executor never makes more than
    one back-end call, so it never has two active sources. *)
Theorem merge_step_single_source_trimmed :
  (forall combined b c u,
     snd (fst (merge_outcomes combined [(b, (c, u))])) = [b] /\
     combine_sections [b] (snd (merge_outcomes combined [(b, (c, u))])) =
     strip (match c with Some t => t | None => "" end)) /\
  (forall db doc syn tpl answer_sources question context account_id,
     (length (filter is_backend_call
        (fst (_execute_answer_sources db doc syn tpl answer_sources question context
                account_id))) <= 1)%nat /\
     (forall o,
        snd (_execute_answer_sources db doc syn tpl answer_sources question context account_id)
        = Return o -> (length (active_sources o) <= 1)%nat)).
Proof.
  split.
  - intros combined b c u. split; [reflexivity|].
    simpl. destruct b; reflexivity.
  - intros. apply execute_calls_at_most_one.
Qed.

(** ** The support-chat wrapper *)

(** C9, counterexample: in support mode, with the decision [["casual"]] and an
    empty casual reply from the model, the router substitutes its apology, so
    the wrapper answers with confidence 0.7, no escalation and intent
    "general". *)
Lemma support_empty_reply_counterexample :
  prioritized_sources (mkDASR [casual] "hello" (Some "")) = [casual] /\
  (let resp := snd (handle_support_chat (routing_returns "{}")
                      (validate_to (mkDASR [casual] "hello" (Some "")))
                      (backend_returns None None) (backend_returns None None)
                      (synthesis_returns "ok") []
                      (mkSupportChatRequest "hello" (Some "support") None (Some 7%Z))) in
   response resp = apology_tr /\ confidence resp = confidence_ok /\
   needsHumanSupport resp = false /\ intent resp = "general" /\
   resp <> _build_support_error_response).
Proof.
  split; [reflexivity|].
  vm_compute. repeat split; try reflexivity. discriminate.
Qed.

(** C9, amended: in support mode, when the parsed decision is [["casual"]]
    and the model's casual reply is empty after trimming, the router answers
    with its fixed apology and the wrapper returns that apology with
    confidence 0.7, no escalation, intent "general" and no suggestions,
    without calling any back end. And for every support request, the canned
    escalation response is returned exactly when the agent's answer is empty
    after trimming. *)
Theorem support_empty_reply_gets_apology rt validate db doc syn tpl
    (request : SupportChatRequest) (c : string) (us : list ModelUsage.t)
    (r : DetermineAnswerSourceResult)
    (Hrt : rt (sreq_message request) "" SUPPORT "" = Return (c, us))
    (Hv : validate (strip c) = Return r)
    (Hsrc : prioritized_sources r = [casual])
    (Hempty : strip (match casual_response r with Some s => s | None => "" end) = "") :
  handle_support_chat rt validate db doc syn tpl request =
    ([], mkSupportChatResponse apology_tr confidence_ok false "general" []) /\
  (forall request' : SupportChatRequest,
     snd (handle_support_chat rt validate db doc syn tpl request') =
       _build_support_error_response <->
     strip (a_response (snd (interact_with_agent rt validate db doc syn tpl
              (mkChatRequest (sreq_message request') [] (sreq_account_id request') ""
                 SUPPORT)))) = "").
Proof.
  split.
  - unfold handle_support_chat, interact_with_agent, _run_chat_pipeline, plan_answer_route.
    simpl req_content. simpl req_context. simpl req_mode. simpl req_siteMap.
    change (_serialize_context [] (Some 5%nat)) with "".
    rewrite Hrt. cbv beta iota zeta. rewrite Hv. cbv beta iota zeta.
    rewrite Hsrc, Hempty. reflexivity.
  - intros request'. unfold handle_support_chat.
    destruct (interact_with_agent rt validate db doc syn tpl _) as [evs reply]. simpl.
    destruct (strip (a_response reply)) as [|ch rest]; simpl.
    + split; reflexivity.
    + split; discriminate.
Qed.

Lemma support_empty_reply_gets_apology_witness :
  (routing_returns "{}" "hello" "" SUPPORT "" = Return ("{}", []) /\
   validate_to (mkDASR [casual] "hello" (Some " ")) (strip "{}") =
     Return (mkDASR [casual] "hello" (Some " ")) /\
   prioritized_sources (mkDASR [casual] "hello" (Some " ")) = [casual] /\
   strip " " = "") /\
  (handle_support_chat (routing_returns "{}") (validate_to (mkDASR [casual] "hello" (Some " ")))
     (backend_returns None None) (backend_returns None None) (synthesis_returns "ok") []
     (mkSupportChatRequest "hello" (Some "support") None (Some 7%Z)) =
     ([], mkSupportChatResponse apology_tr confidence_ok false "general" []) /\
   (forall request' : SupportChatRequest,
      snd (handle_support_chat (routing_returns "{}")
             (validate_to (mkDASR [casual] "hello" (Some " ")))
             (backend_returns None None) (backend_returns None None) (synthesis_returns "ok") []
             request') = _build_support_error_response <->
      strip (a_response (snd (interact_with_agent (routing_returns "{}")
               (validate_to (mkDASR [casual] "hello" (Some " ")))
               (backend_returns None None) (backend_returns None None)
               (synthesis_returns "ok") []
               (mkChatRequest (sreq_message request') [] (sreq_account_id request') ""
                  SUPPORT)))) = "")).
Proof.
  split; [repeat split; reflexivity|].
  exact (support_empty_reply_gets_apology (routing_returns "{}")
           (validate_to (mkDASR [casual] "hello" (Some " ")))
           (backend_returns None None) (backend_returns None None) (synthesis_returns "ok") []
           (mkSupportChatRequest "hello" (Some "support") None (Some 7%Z)) "{}" []
           (mkDASR [casual] "hello" (Some " ")) eq_refl eq_refl eq_refl eq_refl).
Defined.

(** ** Further properties of the pipeline *)

Lemma existsb_eqb_in (x : string) (d : list string) :
  existsb (String.eqb x) d = true <-> In x d.
Proof.
  rewrite existsb_exists. split.
  - intros [y [Hy E]]. apply String.eqb_eq in E. now subst.
  - intros H. exists x. split; [exact H | apply String.eqb_refl].
Qed.

Lemma first_heavy_some (l : list string) (h : string) :
  first_heavy l = Some h -> In h l /\ (h = "database" \/ h = "document").
Proof.
  unfold first_heavy. intros H. apply find_some in H as [Hin Hh].
  split; [exact Hin | now apply is_heavy_true].
Qed.

Lemma default_casual_heavy (answer_sources : list (option string)) (x : string) :
  is_heavy x = true ->
  In x (default_casual (cap_heavy_sources (dedup_sources answer_sources))) <->
  first_heavy (dedup_sources answer_sources) = Some x.
Proof.
  intros Hx. unfold default_casual.
  assert (Hin : In x (cap_heavy_sources (dedup_sources answer_sources)) <->
                first_heavy (dedup_sources answer_sources) = Some x).
  { unfold cap_heavy_sources. rewrite cap_loop_in. split.
    - intros [_ [H|H]]; [congruence | exact H].
    - intros H. split; [apply (first_heavy_some _ _ H) | right; exact H]. }
  destruct (cap_heavy_sources (dedup_sources answer_sources)) eqn:Hc; [|exact Hin].
  rewrite <- Hin. simpl. split; [|tauto].
  intros [<-|[]]. discriminate Hx.
Qed.

(** [async_calls] holds exactly the back end of the first heavy tag. *)
Lemma async_calls_first_heavy (answer_sources : list (option string)) :
  async_calls_of (default_casual (cap_heavy_sources (dedup_sources answer_sources))) =
  match first_heavy (dedup_sources answer_sources) with
  | Some h => [backend_of_tag h]
  | None => []
  end.
Proof.
  unfold async_calls_of.
  set (d := default_casual _).
  assert (Hdb : existsb (String.eqb "database") d =
                match first_heavy (dedup_sources answer_sources) with
                | Some h => String.eqb h "database" | None => false end).
  { apply Bool.eq_iff_eq_true. rewrite existsb_eqb_in.
    unfold d. rewrite default_casual_heavy by reflexivity.
    destruct (first_heavy (dedup_sources answer_sources)) as [h|];
      [rewrite String.eqb_eq; split; congruence | split; discriminate]. }
  assert (Hdoc : existsb (String.eqb "document") d =
                 match first_heavy (dedup_sources answer_sources) with
                 | Some h => String.eqb h "document" | None => false end).
  { apply Bool.eq_iff_eq_true. rewrite existsb_eqb_in.
    unfold d. rewrite default_casual_heavy by reflexivity.
    destruct (first_heavy (dedup_sources answer_sources)) as [h|];
      [rewrite String.eqb_eq; split; congruence | split; discriminate]. }
  rewrite Hdb, Hdoc.
  destruct (first_heavy (dedup_sources answer_sources)) as [h|] eqn:Hf; [|reflexivity].
  destruct (first_heavy_some _ _ Hf) as [_ [-> | ->]]; reflexivity.
Qed.

(** Unfold the executor for a truthy account id [a] down to the case split on
    the first heavy tag. *)
Ltac exec_unfold answer_sources a Ha :=
  unfold _execute_answer_sources, gather;
  assert (Htr : account_truthy (Some a) = true)
    by (simpl; apply Z.eqb_neq in Ha; rewrite Ha; reflexivity);
  rewrite Htr; cbv zeta;
  rewrite (async_calls_first_heavy answer_sources).

Lemma dedup_loop_spec (l : list (option string)) (seen : list string) :
  NoDup (dedup_loop l seen) /\
  (forall x, In x (dedup_loop l seen) -> known_source x = true /\ ~ In x seen).
Proof.
  revert seen. induction l as [|s l IH]; intros seen; simpl.
  - split; [constructor | intros x []].
  - destruct (known_source (normalize_source s)) eqn:Hk; simpl; [|apply IH].
    destruct (existsb (String.eqb (normalize_source s)) seen) eqn:He; [apply IH|].
    destruct (IH (normalize_source s :: seen)) as [Hnd Hin].
    split.
    + constructor; [|exact Hnd].
      intros H. apply Hin in H as [_ H]. apply H. left. reflexivity.
    + intros x [<-|Hx].
      * split; [exact Hk|]. intros H. apply (existsb_eqb_in _ seen) in H. congruence.
      * apply Hin in Hx as [Hk' Hn]. split; [exact Hk'|]. intros H. apply Hn. right. exact H.
Qed.

(** X1: the normalised source list has no duplicates and holds only the tags
    database, document and casual. *)
Theorem dedup_sources_normalized (answer_sources : list (option string)) :
  NoDup (dedup_sources answer_sources) /\
  Forall (fun s => known_source s = true) (dedup_sources answer_sources).
Proof.
  destruct (dedup_loop_spec (match answer_sources with [] => [Some "casual"] | l => l end) [])
    as [Hnd Hin].
  split; [exact Hnd|]. apply Forall_forall. intros x Hx. apply (Hin x Hx).
Qed.

Lemma dedup_loop_blank_seen (l : list (option string)) :
  Forall (fun s => s = None \/ s = Some "") l -> dedup_loop l ["casual"] = [].
Proof.
  induction l as [|s l IH]; intros Hf; [reflexivity|].
  inversion Hf as [|? ? Hs Hl]; subst.
  destruct Hs as [-> | ->]; simpl; apply IH, Hl.
Qed.

(** X2: a source list that is empty or holds only [None] and empty strings is
    read as [["casual"]]. *)
Theorem dedup_sources_blank (answer_sources : list (option string))
    (Hblank : Forall (fun s => s = None \/ s = Some "") answer_sources) :
  dedup_sources answer_sources = ["casual"].
Proof.
  unfold dedup_sources. destruct answer_sources as [|s l]; [reflexivity|].
  inversion Hblank as [|? ? Hs Hl]; subst.
  destruct Hs as [-> | ->]; simpl; rewrite dedup_loop_blank_seen by exact Hl; reflexivity.
Qed.

Lemma dedup_sources_blank_witness :
  Forall (fun s => s = None \/ s = Some "") [None; Some ""; None] /\
  dedup_sources [None; Some ""; None] = ["casual"].
Proof.
  assert (H : Forall (fun s => s = None \/ s = Some "") [None; Some ""; None])
    by (apply Forall_forall; intros x [<-|[<-|[<-|[]]]]; auto).
  split; [exact H|]. apply (dedup_sources_blank [None; Some ""; None] H).
Defined.

(** X3: [prioritized_sources] never returns an empty list, and everything it
    returns is one of the parsed sources or casual. *)
Theorem prioritized_sources_nonempty_subset (r : DetermineAnswerSourceResult) :
  prioritized_sources r <> [] /\
  (forall x, In x (prioritized_sources r) -> In x (sources r) \/ x = casual).
Proof.
  unfold prioritized_sources.
  destruct (sources r) as [|a l] eqn:Hs.
  - simpl. split; [discriminate|]. intros x [<-|[]]. right. reflexivity.
  - destruct (_ && _).
    + destruct (filter (fun s => negb (AnswerSource_eqb s casual)) (a :: l)) as [|b m] eqn:Hf.
      * split; [discriminate|]. intros x [<-|[]]. right. reflexivity.
      * split; [discriminate|]. intros x Hx. left. rewrite <- Hf in Hx.
        apply filter_In in Hx as [Hx _]. exact Hx.
    + split; [discriminate|]. intros x Hx. left. exact Hx.
Qed.

(** X4: with no configured SQL templates the template block is empty; with
    some, the rendered text is non-empty and the list is the templates. *)
Theorem format_sql_templates_cases (tpl : list SqlTemplate) :
  (tpl = [] -> _format_sql_templates tpl = ("", [])) /\
  (tpl <> [] -> snd (_format_sql_templates tpl) = tpl /\
                str_truthy (fst (_format_sql_templates tpl)) = true).
Proof.
  split; [intros ->; reflexivity|].
  intros Hne. unfold _format_sql_templates.
  destruct tpl as [|[[i q] d] rest]; [congruence|].
  split; [reflexivity|].
  destruct rest as [|[[i' q'] d'] rest]; reflexivity.
Qed.

Lemma serialize_skipn_all (context : list ConversationResponse) (n : nat) :
  (length context <= n)%nat ->
  _serialize_context context (Some n) = _serialize_context context None.
Proof.
  intros Hn. unfold _serialize_context. destruct context as [|m rest]; [reflexivity|].
  destruct n as [|k]; [reflexivity|].
  replace (length (m :: rest) - S k)%nat with 0%nat by lia. reflexivity.
Qed.

(** X5: with a limit [n], [_serialize_context] renders only the last [n]
    messages: older messages are dropped, and a context no longer than [n]
    is rendered whole. *)
Theorem serialize_context_last_messages (older recent : list ConversationResponse) (n : nat) :
  (length recent = S n ->
   _serialize_context (older ++ recent) (Some (S n)) = _serialize_context recent None) /\
  ((length recent <= n)%nat ->
   _serialize_context recent (Some n) = _serialize_context recent None).
Proof.
  split; [|apply serialize_skipn_all].
  intros Hl. unfold _serialize_context.
  destruct recent as [|m rest]; [discriminate|].
  destruct (older ++ m :: rest) as [|y ys] eqn:Happ;
    [destruct older; discriminate|].
  rewrite <- Happ, length_app, Hl.
  replace (length older + S n - S n)%nat with (length older) by lia.
  rewrite skipn_app, skipn_all, Nat.sub_diag. reflexivity.
Qed.
Ltac exec_cases answer_sources a Ha h Hf c u e Hb :=
  exec_unfold answer_sources a Ha;
  destruct (first_heavy (dedup_sources answer_sources)) as [h|] eqn:Hf;
  [ destruct (first_heavy_some _ _ Hf) as [_ [-> | ->]];
    cbn [map backend_of_tag String.eqb Ascii.eqb Bool.eqb];
    match goal with
    | |- context [call_backend ?x ?y ?b ?q ?acc] =>
        destruct (call_backend x y b q acc) as [[c u]|e] eqn:Hb
    end; simpl
  | simpl ].

Ltac exec_finish syn :=
  repeat match goal with
  | |- context [_format_sql_templates ?t] =>
      let tt := fresh "ttext" in let tl := fresh "tlist" in
      destruct (_format_sql_templates t) as [tt tl]
  | |- context [if str_truthy ?x then _ else _] => destruct (str_truthy x)
  | |- context [syn ?q ?n ?r ?hst] =>
      let rc := fresh "resp_content" in let us := fresh "usages" in
      let se := fresh "se" in
      destruct (syn q n r hst) as [[rc us]|se]
  end; simpl.

Lemma update_usage_log_consistent (target : ChatbotUsageLog.t) (source : option ChatbotUsageLog.t) :
  ChatbotUsageLog.totals_consistent target ->
  ChatbotUsageLog.totals_consistent (_update_usage_log target source).
Proof.
  intros H. destruct source as [s|]; [apply record_usages_consistent, H | exact H].
Qed.

Lemma new_consistent : ChatbotUsageLog.totals_consistent ChatbotUsageLog.new.
Proof. repeat split. Qed.

Lemma error_log_consistent (msg : string) :
  ChatbotUsageLog.totals_consistent (ChatbotUsageLog.create_error_log msg).
Proof. repeat split. Qed.

Create HintDb usage.
#[local] Hint Resolve update_usage_log_consistent new_consistent error_log_consistent
  record_usages_consistent : usage.

(** Every outcome of the executor with a truthy account, split by account. *)
Lemma execute_account_split (P : list Event * result ExecOutput -> Prop)
    db doc syn tpl answer_sources question context account_id :
  (forall a, account_id = Some a -> a <> 0%Z ->
     P (_execute_answer_sources db doc syn tpl answer_sources question context (Some a))) ->
  (forall e, P ([], Raise e)) ->
  P (_execute_answer_sources db doc syn tpl answer_sources question context account_id).
Proof.
  intros Hs Hr. destruct account_id as [a|]; [|apply Hr].
  destruct (Z.eqb a 0) eqn:Ha.
  - unfold _execute_answer_sources. simpl. rewrite Ha. apply Hr.
  - apply Hs; [reflexivity | apply Z.eqb_neq, Ha].
Qed.

(** X6: with a truthy account the executor calls exactly one back end, the
    one of the first heavy tag (none without a heavy tag), and calls the
    synthesis step exactly when it returns. *)
Theorem execute_call_sequence db doc syn tpl answer_sources question context a
    (Ha : a <> 0%Z) :
  let r := _execute_answer_sources db doc syn tpl answer_sources question context (Some a) in
  fst r =
  app (match first_heavy (dedup_sources answer_sources) with
       | Some h => [backend_event (backend_of_tag h) question a]
       | None => []
       end)
      (match snd r with Return _ => [CallSynthesis] | Raise _ => [] end).
Proof.
  cbv zeta. exec_cases answer_sources a Ha h Hf c u e Hb; exec_finish syn; reflexivity.
Qed.

Lemma execute_call_sequence_witness :
  (3 <> 0)%Z /\
  fst (_execute_answer_sources (backend_returns (Some "rows") None) (backend_returns None None)
         (synthesis_returns "ok") [] [Some "document"; Some "database"] "q" [] (Some 3%Z)) =
  app (match first_heavy (dedup_sources [Some "document"; Some "database"]) with
       | Some h => [backend_event (backend_of_tag h) "q" 3%Z]
       | None => []
       end)
      (match snd (_execute_answer_sources (backend_returns (Some "rows") None)
                    (backend_returns None None) (synthesis_returns "ok") []
                    [Some "document"; Some "database"] "q" [] (Some 3%Z)) with
       | Return _ => [CallSynthesis] | Raise _ => [] end).
Proof.
  split; [lia|].
  exact (execute_call_sequence (backend_returns (Some "rows") None) (backend_returns None None)
           (synthesis_returns "ok") [] [Some "document"; Some "database"] "q" [] 3%Z
           ltac:(lia)).
Defined.

(** X7: a failure of the called back end is raised by the executor as it is,
    before the synthesis step. *)
Theorem execute_backend_failure db doc syn tpl answer_sources question context a h e
    (Ha : a <> 0%Z)
    (Hf : first_heavy (dedup_sources answer_sources) = Some h)
    (Hb : call_backend db doc (backend_of_tag h) question a = Raise e) :
  _execute_answer_sources db doc syn tpl answer_sources question context (Some a) =
  ([backend_event (backend_of_tag h) question a], Raise e).
Proof.
  exec_unfold answer_sources a Ha. rewrite Hf. simpl. rewrite Hb. reflexivity.
Qed.

Lemma execute_backend_failure_witness :
  ((5 <> 0)%Z /\
   first_heavy (dedup_sources [Some "casual"; Some "Database"]) = Some "database" /\
   call_backend (backend_raises (RuntimeError "db down")) (backend_returns None None)
     (backend_of_tag "database") "q" 5%Z = Raise (RuntimeError "db down")) /\
  _execute_answer_sources (backend_raises (RuntimeError "db down"))
    (backend_returns None None) (synthesis_returns "ok") [] [Some "casual"; Some "Database"]
    "q" [] (Some 5%Z) =
  ([backend_event (backend_of_tag "database") "q" 5%Z], Raise (RuntimeError "db down")).
Proof.
  split; [split; [lia | split; reflexivity]|].
  apply (execute_backend_failure (backend_raises (RuntimeError "db down"))
           (backend_returns None None) (synthesis_returns "ok") [] [Some "casual"; Some "Database"]
           "q" [] 5%Z "database" (RuntimeError "db down")); [lia | reflexivity | reflexivity].
Defined.

(** X8: without a heavy tag (and with a truthy account) no back end is called:
    only the synthesis step runs, on an empty raw result, with no active
    source and no SQL templates. *)
Theorem execute_casual_only db doc syn tpl answer_sources question context a
    (Ha : a <> 0%Z)
    (Hf : first_heavy (dedup_sources answer_sources) = None) :
  exists o,
    _execute_answer_sources db doc syn tpl answer_sources question context (Some a) =
      ([CallSynthesis], Return o) /\
    active_sources o = [] /\ raw_result o = "" /\ extras o = None.
Proof.
  exec_unfold answer_sources a Ha. rewrite Hf. simpl. exec_finish syn; eauto.
Qed.

Lemma execute_casual_only_witness :
  ((1 <> 0)%Z /\ first_heavy (dedup_sources [Some " Casual "; Some "web"]) = None) /\
  exists o,
    _execute_answer_sources (backend_returns (Some "rows") None) (backend_returns None None)
      (synthesis_returns "hi") [] [Some " Casual "; Some "web"] "q" [] (Some 1%Z) =
      ([CallSynthesis], Return o) /\
    active_sources o = [] /\ raw_result o = "" /\ extras o = None.
Proof.
  split; [split; [lia | reflexivity]|].
  apply (execute_casual_only (backend_returns (Some "rows") None) (backend_returns None None)
           (synthesis_returns "hi") [] [Some " Casual "; Some "web"] "q" [] 1%Z);
    [lia | reflexivity].
Defined.

(** X9: the active sources reported by the executor are the first heavy tag
    alone, or nothing. *)
Theorem execute_active_sources db doc syn tpl answer_sources question context account_id o
    (Hr : snd (_execute_answer_sources db doc syn tpl answer_sources question context
                 account_id) = Return o) :
  active_sources o =
  match first_heavy (dedup_sources answer_sources) with Some h => [h] | None => [] end.
Proof.
  revert Hr. apply execute_account_split; [|discriminate].
  intros a _ Ha. exec_cases answer_sources a Ha h Hf c u e Hb; exec_finish syn;
    try discriminate; intros Hr; injection Hr as <-; reflexivity.
Qed.

(** X10: the executor returns SQL templates exactly when the database is an
    active source. *)
Theorem execute_extras_iff_database db doc syn tpl answer_sources question context
    account_id o
    (Hr : snd (_execute_answer_sources db doc syn tpl answer_sources question context
                 account_id) = Return o) :
  extras o <> None <-> In "database" (active_sources o).
Proof.
  revert Hr. apply execute_account_split; [|discriminate].
  intros a _ Ha. exec_cases answer_sources a Ha h Hf c u e Hb; exec_finish syn;
    try discriminate; intros Hr; injection Hr as <-; simpl;
    split; intros H; try congruence; try tauto;
    destruct H as [H|[]]; discriminate.
Qed.

(** X11: whatever the back ends and the synthesis step return, the usage log
    of the executor keeps its totals equal to the sums of its entries. *)
Theorem execute_usage_consistent db doc syn tpl answer_sources question context
    account_id o
    (Hr : snd (_execute_answer_sources db doc syn tpl answer_sources question context
                 account_id) = Return o) :
  ChatbotUsageLog.totals_consistent (combined_usage o).
Proof.
  revert Hr. apply execute_account_split; [|discriminate].
  intros a _ Ha. exec_cases answer_sources a Ha h Hf c u e Hb; exec_finish syn;
    try discriminate; intros Hr; injection Hr as <-; simpl; eauto 6 with usage.
Qed.

(** X12: the processed answer is the trimmed synthesis reply, whose usage
    entries close the combined log; if the synthesis step fails it is the raw
    result. *)
Theorem execute_processed_result db doc syn tpl answer_sources question context
    account_id o
    (Hr : snd (_execute_answer_sources db doc syn tpl answer_sources question context
                 account_id) = Return o) :
  match syn question (active_sources o) (raw_result o) (_serialize_context context None) with
  | Return (resp_content, usages) =>
      processed_result o = strip resp_content /\
      exists earlier, ChatbotUsageLog.model_usages (combined_usage o) = earlier ++ usages
  | Raise _ => processed_result o = raw_result o
  end.
Proof.
  revert Hr. apply execute_account_split; [|discriminate].
  intros a _ Ha. exec_unfold answer_sources a Ha.
  destruct (first_heavy (dedup_sources answer_sources)) as [h|] eqn:Hf;
  [ destruct (first_heavy_some _ _ Hf) as [_ [-> | ->]];
    cbn [map backend_of_tag String.eqb Ascii.eqb Bool.eqb];
    match goal with
    | |- context [call_backend ?x ?y ?b ?q ?acc] =>
        destruct (call_backend x y b q acc) as [[c u]|e] eqn:Hb
    end; simpl; try discriminate
  | simpl ];
  repeat match goal with
  | |- context [_format_sql_templates ?t] => destruct (_format_sql_templates t)
  | |- context [if str_truthy ?x then _ else _] => destruct (str_truthy x)
  end; simpl;
  match goal with
  | |- context [syn ?q ?n ?r ?hst] => destruct (syn q n r hst) as [[rc us]|se] eqn:Hs
  end; simpl; intros Hr; injection Hr as <-; simpl; rewrite Hs;
  (split; [reflexivity|]) || reflexivity;
  rewrite !record_usages_model_usages; simpl;
  first [exists []; reflexivity | eexists; reflexivity].
Qed.

Lemma execute_active_sources_witness :
  snd (_execute_answer_sources (backend_returns (Some " rows ") None) (backend_returns None None)
         (synthesis_returns "ok") [] [Some "database"; Some "document"] "q" [] (Some 3%Z)) =
    Return (mkExecOutput "ok" "rows" ChatbotUsageLog.new ["database"] (Some ([], ""))) /\
  active_sources (mkExecOutput "ok" "rows" ChatbotUsageLog.new ["database"] (Some ([], ""))) =
  match first_heavy (dedup_sources [Some "database"; Some "document"]) with
  | Some h => [h] | None => [] end.
Proof.
  assert (H : snd (_execute_answer_sources (backend_returns (Some " rows ") None)
                     (backend_returns None None) (synthesis_returns "ok") []
                     [Some "database"; Some "document"] "q" [] (Some 3%Z)) =
              Return (mkExecOutput "ok" "rows" ChatbotUsageLog.new ["database"] (Some ([], ""))))
    by reflexivity.
  split; [exact H|].
  exact (execute_active_sources _ _ _ _ _ _ _ _ _ H).
Defined.

Lemma execute_extras_iff_database_witness :
  snd (_execute_answer_sources (backend_returns (Some " rows ") None) (backend_returns None None)
         (synthesis_returns "ok") [] [Some "database"] "q" [] (Some 3%Z)) =
    Return (mkExecOutput "ok" "rows" ChatbotUsageLog.new ["database"] (Some ([], ""))) /\
  (extras (mkExecOutput "ok" "rows" ChatbotUsageLog.new ["database"] (Some ([], ""))) <> None <->
   In "database"
     (active_sources (mkExecOutput "ok" "rows" ChatbotUsageLog.new ["database"] (Some ([], ""))))).
Proof.
  assert (H : snd (_execute_answer_sources (backend_returns (Some " rows ") None)
                     (backend_returns None None) (synthesis_returns "ok") []
                     [Some "database"] "q" [] (Some 3%Z)) =
              Return (mkExecOutput "ok" "rows" ChatbotUsageLog.new ["database"] (Some ([], ""))))
    by reflexivity.
  split; [exact H|].
  exact (execute_extras_iff_database _ _ _ _ _ _ _ _ _ H).
Defined.

Lemma execute_usage_consistent_witness :
  exists o,
    snd (_execute_answer_sources
           (backend_returns (Some "rows")
              (Some (ChatbotUsageLog.add_usage ChatbotUsageLog.new "sql" 10 5 15 0.25 300)))
           (backend_returns None None)
           (fun _ _ _ _ => Return ("ok", [ModelUsage.mk "llama" 3 4 7 0.5 90]))
           [] [Some "database"] "q" [] (Some 3%Z)) = Return o /\
    ChatbotUsageLog.total_tokens (combined_usage o) = 22%Z /\
    length (ChatbotUsageLog.model_usages (combined_usage o)) = 2%nat /\
    ChatbotUsageLog.totals_consistent (combined_usage o).
Proof.
  let v := eval vm_compute in
    (snd (_execute_answer_sources
            (backend_returns (Some "rows")
               (Some (ChatbotUsageLog.add_usage ChatbotUsageLog.new "sql" 10 5 15 0.25 300)))
            (backend_returns None None)
            (fun _ _ _ _ => Return ("ok", [ModelUsage.mk "llama" 3 4 7 0.5 90]))
            [] [Some "database"] "q" [] (Some 3%Z))) in
  lazymatch v with
  | Return ?o =>
      assert (H : snd (_execute_answer_sources
                (backend_returns (Some "rows")
                   (Some (ChatbotUsageLog.add_usage ChatbotUsageLog.new "sql" 10 5 15 0.25 300)))
                (backend_returns None None)
                (fun _ _ _ _ => Return ("ok", [ModelUsage.mk "llama" 3 4 7 0.5 90]))
                [] [Some "database"] "q" [] (Some 3%Z)) = Return o)
        by (vm_compute; reflexivity);
      exists o; split; [exact H|]; split; [vm_compute; reflexivity|];
      split; [vm_compute; reflexivity|];
      exact (execute_usage_consistent _ _ _ _ _ _ _ _ _ H)
  end.
Defined.

Lemma execute_processed_result_witness :
  snd (_execute_answer_sources (backend_returns None None) (backend_returns (Some "docs") None)
         (synthesis_returns " answer ") [] [Some "document"] "q" [] (Some 3%Z)) =
    Return (mkExecOutput "answer" "docs" ChatbotUsageLog.new ["document"] None) /\
  match synthesis_returns " answer " "q" ["document"] "docs" (_serialize_context [] None) with
  | Return (resp_content, usages) =>
      processed_result (mkExecOutput "answer" "docs" ChatbotUsageLog.new ["document"] None)
        = strip resp_content /\
      exists earlier,
        ChatbotUsageLog.model_usages
          (combined_usage (mkExecOutput "answer" "docs" ChatbotUsageLog.new ["document"] None))
        = earlier ++ usages
  | Raise _ =>
      processed_result (mkExecOutput "answer" "docs" ChatbotUsageLog.new ["document"] None)
      = raw_result (mkExecOutput "answer" "docs" ChatbotUsageLog.new ["document"] None)
  end.
Proof.
  assert (H : snd (_execute_answer_sources (backend_returns None None)
                     (backend_returns (Some "docs") None) (synthesis_returns " answer ") []
                     [Some "document"] "q" [] (Some 3%Z)) =
              Return (mkExecOutput "answer" "docs" ChatbotUsageLog.new ["document"] None))
    by reflexivity.
  split; [exact H|].
  exact (execute_processed_result _ _ _ _ _ _ _ _ _ H).
Defined.

(** X13: the raw result of a single back-end answer is its trimmed text; for
    the database, a non-empty template block is appended after a blank line
    and the whole is trimmed again. *)
Theorem execute_raw_result db doc syn tpl answer_sources question context a h c u
    (Ha : a <> 0%Z)
    (Hf : first_heavy (dedup_sources answer_sources) = Some h)
    (Hb : call_backend db doc (backend_of_tag h) question a = Return (c, u)) :
  exists o,
    snd (_execute_answer_sources db doc syn tpl answer_sources question context (Some a)) =
      Return o /\
    raw_result o =
    (let text := strip (match c with Some t => t | None => "" end) in
     let ttext := fst (_format_sql_templates tpl) in
     if String.eqb h "database" && str_truthy ttext then
       strip (text ++ nl ++ nl ++ strip ("Kullanılabilir SQL Şablonları:" ++ nl ++ ttext))
     else text).
Proof.
  exec_unfold answer_sources a Ha. rewrite Hf.
  destruct (first_heavy_some _ _ Hf) as [_ [-> | ->]];
    cbn [map backend_of_tag String.eqb Ascii.eqb Bool.eqb andb]; simpl; simpl in Hb; rewrite Hb; simpl;
    [destruct (_format_sql_templates tpl) as [ttext tlist]; simpl;
     destruct (str_truthy ttext)|];
    simpl; exec_finish syn; eauto.
Qed.

Lemma execute_raw_result_witness :
  ((3 <> 0)%Z /\
   first_heavy (dedup_sources [Some "database"]) = Some "database" /\
   call_backend (backend_returns (Some " rows ") None) (backend_returns None None)
     (backend_of_tag "database") "q" 3%Z = Return (Some " rows ", None)) /\
  exists o,
    snd (_execute_answer_sources (backend_returns (Some " rows ") None)
           (backend_returns None None) (synthesis_returns "ok")
           [("show all", "SELECT 1", None)] [Some "database"] "q" [] (Some 3%Z)) =
      Return o /\
    raw_result o =
    (let text := strip (match Some " rows " with Some t => t | None => "" end) in
     let ttext := fst (_format_sql_templates [("show all", "SELECT 1", None)]) in
     if String.eqb "database" "database" && str_truthy ttext then
       strip (text ++ nl ++ nl ++ strip ("Kullanılabilir SQL Şablonları:" ++ nl ++ ttext))
     else text).
Proof.
  split; [split; [lia | split; reflexivity]|].
  apply (execute_raw_result (backend_returns (Some " rows ") None) (backend_returns None None)
           (synthesis_returns "ok") [("show all", "SELECT 1", None)] [Some "database"] "q" []
           3%Z "database" (Some " rows ") None); [lia | reflexivity | reflexivity].
Defined.

Ltac pipeline_split :=
  unfold _run_chat_pipeline;
  match goal with
  | |- context [plan_answer_route ?rt ?v ?m ?c ?s ?md] =>
      destruct (plan_answer_route rt v m c s md) as [[[srcs rq] lg] [imm|]] eqn:Hplan
  end; cbv beta iota zeta;
  [| match goal with
     | |- context [_execute_answer_sources ?d1 ?d2 ?s ?t ?l ?q ?c ?acc] =>
         destruct (_execute_answer_sources d1 d2 s t l q c acc) as [evs [o|exc]] eqn:Hexec
     end; cbv beta iota zeta].

Lemma pipeline_swallowing_returns rt validate db doc syn tpl message context account_id
    site_map mode :
  exists p,
    snd (_run_chat_pipeline rt validate db doc syn tpl message context account_id site_map
           mode false) = Return p.
Proof. pipeline_split; eexists; reflexivity. Qed.

(** X14: with [raise_on_error] off the pipeline never raises. *)
Theorem run_chat_pipeline_no_raise rt validate db doc syn tpl message context account_id
    site_map mode :
  exists p,
    snd (_run_chat_pipeline rt validate db doc syn tpl message context account_id site_map
           mode false) = Return p.
Proof. pipeline_split; eexists; reflexivity. Qed.

(** X15: when the executor fails, the pipeline raises its exception with
    [raise_on_error] on, and otherwise returns an empty answer with the
    casual source, the original message and an error log of the exception
    (the routing usage is not kept). *)
Theorem run_chat_pipeline_executor_failure rt validate db doc syn tpl message context
    account_id site_map mode raise_on_error srcs refined lg e
    (Hplan : plan_answer_route rt validate message context site_map mode =
             (srcs, refined, lg, None))
    (Hexec : snd (_execute_answer_sources db doc syn tpl (map Some srcs) refined context
                    account_id) = Raise e) :
  snd (_run_chat_pipeline rt validate db doc syn tpl message context account_id site_map mode
         raise_on_error) =
  if raise_on_error then Raise e
  else Return (mkPipelineOutput "" "" (ChatbotUsageLog.create_error_log (str_exn e))
                 ["casual"] message None).
Proof.
  unfold _run_chat_pipeline. rewrite Hplan. cbv beta iota zeta.
  destruct (_execute_answer_sources db doc syn tpl (map Some srcs) refined context account_id)
    as [evs r]. simpl in Hexec. subst r. destruct raise_on_error; reflexivity.
Qed.

Lemma run_chat_pipeline_executor_failure_witness :
  (plan_answer_route (routing_returns "{}") (validate_to (mkDASR [database] "rows?" None))
     "rows?" [] "" STANDARD = (["database"], "rows?", ChatbotUsageLog.new, None) /\
   snd (_execute_answer_sources (backend_raises (RuntimeError "db down"))
          (backend_returns None None) (synthesis_returns "ok") [] (map Some ["database"])
          "rows?" [] (Some 4%Z)) = Raise (RuntimeError "db down")) /\
  snd (_run_chat_pipeline (routing_returns "{}") (validate_to (mkDASR [database] "rows?" None))
         (backend_raises (RuntimeError "db down")) (backend_returns None None)
         (synthesis_returns "ok") [] "rows?" [] (Some 4%Z) "" STANDARD false) =
  Return (mkPipelineOutput "" ""
            (ChatbotUsageLog.create_error_log (str_exn (RuntimeError "db down")))
            ["casual"] "rows?" None).
Proof.
  split; [split; reflexivity|].
  exact (run_chat_pipeline_executor_failure (routing_returns "{}")
           (validate_to (mkDASR [database] "rows?" None))
           (backend_raises (RuntimeError "db down")) (backend_returns None None)
           (synthesis_returns "ok") [] "rows?" [] (Some 4%Z) "" STANDARD false ["database"]
           "rows?" ChatbotUsageLog.new (RuntimeError "db down") eq_refl eq_refl).
Defined.

(** X16: every usage log the pipeline returns keeps its totals equal to the
    sums of its entries. *)
Theorem run_chat_pipeline_usage_consistent rt validate db doc syn tpl message context
    account_id site_map mode raise_on_error p
    (Hr : snd (_run_chat_pipeline rt validate db doc syn tpl message context account_id
                 site_map mode raise_on_error) = Return p) :
  ChatbotUsageLog.totals_consistent (p_usage_log p).
Proof.
  revert Hr. pipeline_split.
  - intros Hr. injection Hr as <-. simpl. eauto with usage.
  - intros Hr. injection Hr as <-. simpl. eauto with usage.
  - destruct raise_on_error; [discriminate|]. intros Hr. injection Hr as <-. simpl.
    eauto with usage.
Qed.

Lemma run_chat_pipeline_usage_consistent_witness :
  exists p,
    snd (_run_chat_pipeline
           (fun _ _ _ _ => Return ("{}", [ModelUsage.mk "router" 20 2 22 0.125 150]))
           (validate_to (mkDASR [database] "rows?" None))
           (backend_returns (Some "rows")
              (Some (ChatbotUsageLog.add_usage ChatbotUsageLog.new "sql" 10 5 15 0.25 300)))
           (backend_returns None None)
           (fun _ _ _ _ => Return ("ok", [ModelUsage.mk "llama" 3 4 7 0.5 90]))
           [] "rows?" [] (Some 3%Z) "" STANDARD true) = Return p /\
    ChatbotUsageLog.total_tokens (p_usage_log p) = 44%Z /\
    length (ChatbotUsageLog.model_usages (p_usage_log p)) = 3%nat /\
    ChatbotUsageLog.totals_consistent (p_usage_log p).
Proof.
  let v := eval vm_compute in
    (snd (_run_chat_pipeline
            (fun _ _ _ _ => Return ("{}", [ModelUsage.mk "router" 20 2 22 0.125 150]))
            (validate_to (mkDASR [database] "rows?" None))
            (backend_returns (Some "rows")
               (Some (ChatbotUsageLog.add_usage ChatbotUsageLog.new "sql" 10 5 15 0.25 300)))
            (backend_returns None None)
            (fun _ _ _ _ => Return ("ok", [ModelUsage.mk "llama" 3 4 7 0.5 90]))
            [] "rows?" [] (Some 3%Z) "" STANDARD true)) in
  lazymatch v with
  | Return ?p =>
      assert (H : snd (_run_chat_pipeline
                (fun _ _ _ _ => Return ("{}", [ModelUsage.mk "router" 20 2 22 0.125 150]))
                (validate_to (mkDASR [database] "rows?" None))
                (backend_returns (Some "rows")
                   (Some (ChatbotUsageLog.add_usage ChatbotUsageLog.new "sql" 10 5 15 0.25 300)))
                (backend_returns None None)
                (fun _ _ _ _ => Return ("ok", [ModelUsage.mk "llama" 3 4 7 0.5 90]))
                [] "rows?" [] (Some 3%Z) "" STANDARD true) = Return p)
        by (vm_compute; reflexivity);
      exists p; split; [exact H|]; split; [vm_compute; reflexivity|];
      split; [vm_compute; reflexivity|];
      exact (run_chat_pipeline_usage_consistent _ _ _ _ _ _ _ _ _ _ _ _ _ H)
  end.
Defined.

Lemma route_sources_known (l : list AnswerSource) :
  let srcs := match l with [] => ["casual"] | l => map AnswerSource_str l end in
  srcs <> [] /\ Forall (fun s => known_source s = true) srcs.
Proof.
  destruct l as [|x l]; simpl; (split; [discriminate|]); [repeat constructor|].
  apply Forall_forall. intros s Hs.
  destruct Hs as [<-|Hs]; [destruct x; reflexivity|].
  apply in_map_iff in Hs as [y [<- _]]. destruct y; reflexivity.
Qed.

Lemma plan_finish (srcs : list string) (improved question : string)
    (casual_answer : option string) (usage_log : ChatbotUsageLog.t) :
  srcs <> [] -> Forall (fun s => known_source s = true) srcs ->
  (forall x, casual_answer = Some x -> str_truthy x = true) ->
  ChatbotUsageLog.totals_consistent usage_log ->
  let '(srcs', question', log, immediate) :=
    if existsb is_heavy srcs then (srcs, improved, usage_log, None)
    else (srcs, question, usage_log,
          Some (match casual_answer with Some a => a | None => apology_tr end)) in
  srcs' <> [] /\ Forall (fun s => known_source s = true) srcs' /\
  (immediate = None <-> existsb is_heavy srcs' = true) /\
  (forall x, immediate = Some x -> str_truthy x = true /\ question' = question) /\
  ChatbotUsageLog.totals_consistent log.
Proof.
  intros Hne Hk Hca Hlog.
  destruct (existsb is_heavy srcs) eqn:Hh;
    (split; [exact Hne|]); (split; [exact Hk|]); (split; [|split; [|exact Hlog]]).
  - split; [intros _; exact Hh | intros _; reflexivity].
  - discriminate.
  - split; [discriminate | intros H; congruence].
  - intros x Hx. injection Hx as <-. split; [|reflexivity].
    destruct casual_answer as [y|]; [apply Hca; reflexivity | reflexivity].
Qed.

(** X17: [plan_answer_route] always returns a non-empty list of known source
    tags; it gives an immediate answer exactly when no heavy source is
    routed, that answer is non-empty and comes with the original question;
    and its usage log keeps consistent totals. *)
Theorem plan_answer_route_shape rt validate question context site_map mode :
  let '(srcs, question', log, immediate) :=
    plan_answer_route rt validate question context site_map mode in
  srcs <> [] /\ Forall (fun s => known_source s = true) srcs /\
  (immediate = None <-> existsb is_heavy srcs = true) /\
  (forall x, immediate = Some x -> str_truthy x = true /\ question' = question) /\
  ChatbotUsageLog.totals_consistent log.
Proof.
  unfold plan_answer_route. cbv zeta.
  destruct (rt _ _ _ _) as [[c us]|e]; cbv beta iota;
    [|repeat split; auto with usage; discriminate].
  destruct (validate (strip c)) as [r|e]; cbv beta iota.
  - destruct (route_sources_known (match mode with
                                   | SUPPORT => if existsb (AnswerSource_eqb casual)
                                                     (prioritized_sources r)
                                                then [casual] else prioritized_sources r
                                   | STANDARD => prioritized_sources r
                                   end)) as [Hne Hk].
    apply plan_finish; auto with usage.
    intros x. destruct (str_truthy _) eqn:Ht; [|discriminate].
    intros H. injection H as <-. exact Ht.
  - destruct (is_parse_error e); cbv beta iota.
    + exact (plan_finish ["casual"] question question None _ ltac:(discriminate)
               ltac:(repeat constructor) ltac:(discriminate)
               (record_usages_consistent _ us new_consistent)).
    + repeat split; auto with usage; discriminate.
Qed.

(** X18: a routing reply that fails to parse is answered at once with the
    apology, under the casual source and the original question, keeping the
    routing usage. *)
Theorem plan_answer_route_parse_failure rt validate question context site_map mode c us e
    (Hrt : rt question (_serialize_context context (Some 5%nat)) mode site_map =
           Return (c, us))
    (Hv : validate (strip c) = Raise e)
    (Hp : is_parse_error e = true) :
  plan_answer_route rt validate question context site_map mode =
  (["casual"], question, ChatbotUsageLog.record_usages ChatbotUsageLog.new us, Some apology_tr).
Proof.
  unfold plan_answer_route. rewrite Hrt. cbv beta iota zeta. rewrite Hv, Hp. reflexivity.
Qed.

Lemma plan_answer_route_parse_failure_witness :
  (routing_returns "not json" "hi" (_serialize_context [] (Some 5%nat)) STANDARD "" =
     Return ("not json", []) /\
   (fun _ : string => @Raise DetermineAnswerSourceResult (ValidationError "bad")) (strip "not json")
     = Raise (ValidationError "bad") /\
   is_parse_error (ValidationError "bad") = true) /\
  plan_answer_route (routing_returns "not json")
    (fun _ => Raise (ValidationError "bad")) "hi" [] "" STANDARD =
  (["casual"], "hi", ChatbotUsageLog.record_usages ChatbotUsageLog.new [], Some apology_tr).
Proof.
  split; [repeat split; reflexivity|].
  exact (plan_answer_route_parse_failure (routing_returns "not json")
           (fun _ => Raise (ValidationError "bad")) "hi" [] "" STANDARD "not json" []
           (ValidationError "bad") eq_refl eq_refl eq_refl).
Defined.

Lemma lstrip_idem (s : string) : lstrip (lstrip s) = lstrip s.
Proof.
  induction s as [|c r IH]; [reflexivity|]. simpl.
  destruct (is_space c) eqn:Hc; [exact IH|]. simpl. rewrite Hc. reflexivity.
Qed.

Lemma rstrip_idem (s : string) : rstrip (rstrip s) = rstrip s.
Proof.
  induction s as [|c r IH]; [reflexivity|]. cbn [rstrip].
  destruct (is_space c && String.eqb (rstrip r) EmptyString) eqn:Hc; [reflexivity|].
  cbn [rstrip]. rewrite IH, Hc. reflexivity.
Qed.

Lemma rstrip_lstrip (s : string) : rstrip (lstrip s) = lstrip (rstrip s).
Proof.
  induction s as [|c r IH]; [reflexivity|]. cbn [lstrip rstrip].
  destruct (is_space c) eqn:Hc; simpl.
  - rewrite IH. destruct (String.eqb (rstrip r) EmptyString) eqn:He.
    + apply String.eqb_eq in He. rewrite He. reflexivity.
    + simpl. rewrite Hc. reflexivity.
  - rewrite Hc. reflexivity.
Qed.

Lemma strip_idem (s : string) : strip (strip s) = strip s.
Proof.
  unfold strip. rewrite rstrip_lstrip, rstrip_idem, lstrip_idem. reflexivity.
Qed.

(** X19: [interact_with_agent] reports a failure only in standard mode, and
    then with the fixed apology and the error conversation type. *)
Theorem interact_failure_standard_only rt validate db doc syn tpl request
    (Hf : a_success (snd (interact_with_agent rt validate db doc syn tpl request)) = false) :
  req_mode request = STANDARD /\
  a_response (snd (interact_with_agent rt validate db doc syn tpl request)) =
    "I encountered an error processing your request. Please try again." /\
  a_conversation_type (snd (interact_with_agent rt validate db doc syn tpl request)) = "error".
Proof.
  revert Hf. unfold interact_with_agent.
  destruct (req_mode request) eqn:Hm.
  - destruct (_run_chat_pipeline rt validate db doc syn tpl (req_content request)
                (req_context request) (req_account_id request) (req_siteMap request)
                STANDARD true) as [evs [p|e]]; simpl; [discriminate|].
    intros _. repeat split.
  - destruct (pipeline_swallowing_returns rt validate db doc syn tpl (req_content request)
                (req_context request) (req_account_id request) (req_siteMap request)
                SUPPORT) as [p Hp].
    destruct (_run_chat_pipeline rt validate db doc syn tpl (req_content request)
                (req_context request) (req_account_id request) (req_siteMap request)
                SUPPORT false) as [evs r]. simpl in Hp. subst r. simpl. discriminate.
Qed.

Lemma interact_failure_standard_only_witness :
  a_success (snd (interact_with_agent (routing_returns "{}")
                    (validate_to (mkDASR [document] "q" None))
                    (backend_returns None None) (backend_returns None None)
                    (synthesis_returns "ok") [] (mkChatRequest "q" [] None "" STANDARD))) = false /\
  (req_mode (mkChatRequest "q" [] None "" STANDARD) = STANDARD /\
   a_response (snd (interact_with_agent (routing_returns "{}")
                      (validate_to (mkDASR [document] "q" None))
                      (backend_returns None None) (backend_returns None None)
                      (synthesis_returns "ok") [] (mkChatRequest "q" [] None "" STANDARD))) =
     "I encountered an error processing your request. Please try again." /\
   a_conversation_type (snd (interact_with_agent (routing_returns "{}")
                      (validate_to (mkDASR [document] "q" None))
                      (backend_returns None None) (backend_returns None None)
                      (synthesis_returns "ok") [] (mkChatRequest "q" [] None "" STANDARD)))
     = "error").
Proof.
  assert (H : a_success (snd (interact_with_agent (routing_returns "{}")
                    (validate_to (mkDASR [document] "q" None))
                    (backend_returns None None) (backend_returns None None)
                    (synthesis_returns "ok") [] (mkChatRequest "q" [] None "" STANDARD))) = false)
    by reflexivity.
  split; [exact H|].
  exact (interact_failure_standard_only _ _ _ _ _ _ _ H).
Defined.

(** X20: [handle_support_chat] answers either with the escalation response
    or with a non-empty, already trimmed text at confidence 0.7, intent
    general, no escalation and no suggestions. *)
Theorem handle_support_chat_shape rt validate db doc syn tpl request :
  let resp := snd (handle_support_chat rt validate db doc syn tpl request) in
  resp = _build_support_error_response \/
  (str_truthy (response resp) = true /\ strip (response resp) = response resp /\
   confidence resp = confidence_ok /\ needsHumanSupport resp = false /\
   intent resp = "general" /\ suggestions resp = []).
Proof.
  cbv zeta. unfold handle_support_chat.
  destruct (interact_with_agent rt validate db doc syn tpl _) as [evs reply].
  destruct (str_truthy (strip (a_response reply))) eqn:Ht; simpl; [right|left; reflexivity].
  repeat split; [exact Ht | apply strip_idem].
Qed.

(** X21: in the support chat, a route to a heavy source without a usable
    account calls no back end and escalates to a human. *)
Theorem support_structured_without_account rt validate db doc syn tpl request srcs
    refined lg
    (Hplan : plan_answer_route rt validate (sreq_message request) [] "" SUPPORT =
             (srcs, refined, lg, None))
    (Hacc : account_truthy (sreq_account_id request) = false) :
  handle_support_chat rt validate db doc syn tpl request =
  ([], _build_support_error_response).
Proof.
  unfold handle_support_chat, interact_with_agent, _run_chat_pipeline.
  simpl req_content. simpl req_context. simpl req_mode. simpl req_siteMap.
  simpl req_account_id. rewrite Hplan. cbv beta iota zeta.
  rewrite execute_without_account by exact Hacc. reflexivity.
Qed.

Lemma support_structured_without_account_witness :
  (plan_answer_route (routing_returns "{}") (validate_to (mkDASR [document] "help" None))
     (sreq_message (mkSupportChatRequest "help" None None None)) [] "" SUPPORT =
     (["document"], "help", ChatbotUsageLog.new, None) /\
   account_truthy (sreq_account_id (mkSupportChatRequest "help" None None None)) = false) /\
  handle_support_chat (routing_returns "{}") (validate_to (mkDASR [document] "help" None))
    (backend_returns (Some "rows") None) (backend_returns (Some "docs") None)
    (synthesis_returns "ok") [] (mkSupportChatRequest "help" None None None) =
  ([], _build_support_error_response).
Proof.
  split; [split; reflexivity|].
  exact (support_structured_without_account (routing_returns "{}")
           (validate_to (mkDASR [document] "help" None))
           (backend_returns (Some "rows") None) (backend_returns (Some "docs") None)
           (synthesis_returns "ok") [] (mkSupportChatRequest "help" None None None)
           ["document"] "help" ChatbotUsageLog.new eq_refl eq_refl).
Defined.

(** X22: an immediate answer of the router is returned by
    [interact_with_agent] as a success, with no back-end or synthesis call. *)
Theorem interact_immediate_no_calls rt validate db doc syn tpl request srcs refined lg
    immediate
    (Hplan : plan_answer_route rt validate (req_content request) (req_context request)
               (req_siteMap request) (req_mode request) = (srcs, refined, lg, Some immediate)) :
  fst (interact_with_agent rt validate db doc syn tpl request) = [] /\
  a_success (snd (interact_with_agent rt validate db doc syn tpl request)) = true /\
  a_response (snd (interact_with_agent rt validate db doc syn tpl request)) = immediate.
Proof.
  unfold interact_with_agent, _run_chat_pipeline. rewrite Hplan. cbv beta iota zeta.
  repeat split.
Qed.

Lemma interact_immediate_no_calls_witness :
  plan_answer_route (routing_returns "{}") (validate_to (mkDASR [casual] "hi" (Some " Hello! ")))
    (req_content (mkChatRequest "hi" [] (Some 2%Z) "" STANDARD))
    (req_context (mkChatRequest "hi" [] (Some 2%Z) "" STANDARD))
    (req_siteMap (mkChatRequest "hi" [] (Some 2%Z) "" STANDARD))
    (req_mode (mkChatRequest "hi" [] (Some 2%Z) "" STANDARD)) =
    (["casual"], "hi", ChatbotUsageLog.new, Some "Hello!") /\
  (fst (interact_with_agent (routing_returns "{}")
          (validate_to (mkDASR [casual] "hi" (Some " Hello! ")))
          (backend_returns (Some "rows") None) (backend_returns None None)
          (synthesis_returns "ok") [] (mkChatRequest "hi" [] (Some 2%Z) "" STANDARD)) = [] /\
   a_success (snd (interact_with_agent (routing_returns "{}")
          (validate_to (mkDASR [casual] "hi" (Some " Hello! ")))
          (backend_returns (Some "rows") None) (backend_returns None None)
          (synthesis_returns "ok") [] (mkChatRequest "hi" [] (Some 2%Z) "" STANDARD))) = true /\
   a_response (snd (interact_with_agent (routing_returns "{}")
          (validate_to (mkDASR [casual] "hi" (Some " Hello! ")))
          (backend_returns (Some "rows") None) (backend_returns None None)
          (synthesis_returns "ok") [] (mkChatRequest "hi" [] (Some 2%Z) "" STANDARD)))
     = "Hello!").
Proof.
  split; [reflexivity|].
  exact (interact_immediate_no_calls (routing_returns "{}")
           (validate_to (mkDASR [casual] "hi" (Some " Hello! ")))
           (backend_returns (Some "rows") None) (backend_returns None None)
           (synthesis_returns "ok") [] (mkChatRequest "hi" [] (Some 2%Z) "" STANDARD)
           ["casual"] "hi" ChatbotUsageLog.new "Hello!" eq_refl).
Defined.

(** X23: merging a usage log with [_update_usage_log] appends the source's
    entries to the target's, in order, and keeps the totals consistent. *)
Theorem update_usage_log_appends (target source : ChatbotUsageLog.t)
    (Ht : ChatbotUsageLog.totals_consistent target) :
  ChatbotUsageLog.model_usages (_update_usage_log target (Some source)) =
    ChatbotUsageLog.model_usages target ++ ChatbotUsageLog.model_usages source /\
  ChatbotUsageLog.totals_consistent (_update_usage_log target (Some source)).
Proof.
  split; [apply record_usages_model_usages | apply record_usages_consistent, Ht].
Qed.

Lemma update_usage_log_appends_witness :
  ChatbotUsageLog.totals_consistent ChatbotUsageLog.new /\
  ChatbotUsageLog.model_usages
    (_update_usage_log ChatbotUsageLog.new
       (Some (ChatbotUsageLog.add_usage ChatbotUsageLog.new "gpt" 3 4 7 0.5 120))) =
    ChatbotUsageLog.model_usages ChatbotUsageLog.new ++
    ChatbotUsageLog.model_usages
      (ChatbotUsageLog.add_usage ChatbotUsageLog.new "gpt" 3 4 7 0.5 120) /\
  ChatbotUsageLog.totals_consistent
    (_update_usage_log ChatbotUsageLog.new
       (Some (ChatbotUsageLog.add_usage ChatbotUsageLog.new "gpt" 3 4 7 0.5 120))).
Proof.
  split; [repeat split|].
  apply (update_usage_log_appends ChatbotUsageLog.new
           (ChatbotUsageLog.add_usage ChatbotUsageLog.new "gpt" 3 4 7 0.5 120)).
  repeat split.
Defined.
